(** * pronote-ics-sync: the refresh cache and the feed builder of [main.py]

    A shallow embedding of [PronoteBackend] (src/main.py): the single-slot
    lesson cache of [get_lessons], the time normalisation of [_to_local], the
    stable event identifier of [_uid_for] and the event construction of
    [lessons_to_ics], followed by the properties the specification states
    about them.

    Conventions of the embedding.
    - A Python [str] is a Rocq [string] holding the bytes of its UTF-8
      encoding, so [encode("utf-8")] lists those bytes and an f-string is a
      concatenation.
    - [time.time()] readings, the TTL and [_cache_until] are integers counted
      in one common unit; the clock reading of a call is an argument of the
      call.
    - A [date] is its proleptic Gregorian ordinal ([date.toordinal()]).
    - A [datetime] is its wall-clock reading in microseconds since the day
      before 0001-01-01, its [fold] flag and a reference to its zone; the
      operations that build a new value raise [OverflowError] outside the
      years [MINYEAR] to [MAXYEAR], as the Python type does.
    - The libraries the program calls ([hashlib], [datetime], [pronotepy],
      [icalendar]) are not part of the repository: SHA-1 follows FIPS 180-4,
      [datetime] follows CPython's pure Python implementation, the Pronote
      service is an argument of every call, and the calendar is kept as the
      component tree handed to [to_ical].
    - The terminal dialogue of the start reads the lines of the input one by
      one, [input] raising [EOFError] when none is left; the request handler
      receives the path and the query as [urlparse] and [parse_qs] give them.
      The builtin [int], the serialisation [to_ical] and [tz.gettz] are
      arguments of what uses them; the connection is taken to accept every
      byte the handler writes. *)

From Stdlib Require Import ZArith List String Ascii Bool Lia DecimalString.
Import ListNotations.
Open Scope Z_scope.

(* ------------------------------------------------------------------ *)
(** ** Python strings and truthiness *)

Module Py.

Definition str := string.

(** [s.encode("utf-8")]: the bytes of the string. *)
Definition encode_utf8 (s : str) : list Z :=
  map (fun a => Z.of_N (N_of_ascii a)) (list_ascii_of_string s).

(** Truthiness of a value that is [None] or a [str]. *)
Definition truthy (v : option str) : bool :=
  match v with
  | None => false
  | Some s => negb (String.eqb s EmptyString)
  end.

(** [v or d] where [d] is a [str]: the result is always a [str]. *)
Definition or_else (v : option str) (d : str) : str :=
  match v with
  | Some s => if truthy v then s else d
  | None => d
  end.

(** An attribute of an object of an external class: it may be missing
    altogether, or hold [None], or hold a value. *)
Inductive attr (T : Type) : Type :=
| Missing : attr T
| Holds : option T -> attr T.
Arguments Missing {T}.
Arguments Holds {T} _.

(** [getattr(obj, name, default)]. *)
Definition getattr {T : Type} (a : attr T) (default : option T) : option T :=
  match a with
  | Missing => default
  | Holds v => v
  end.

(** [bool(v)] for a value that is [None] or a [bool]. *)
Definition bool_of (v : option bool) : bool :=
  match v with
  | Some b => b
  | None => false
  end.

(** [sep.join(lines)]. *)
Fixpoint join (sep : str) (lines : list str) : str :=
  match lines with
  | [] => EmptyString
  | [l] => l
  | l :: rest => (l ++ sep ++ join sep rest)%string
  end.

(** The characters [str.isspace] accepts, in their UTF-8 encoding: one,
    two or three bytes; [b0] is the first byte. *)
Definition space1 (b0 : Z) : bool :=
  ((9 <=? b0) && (b0 <=? 13)) || ((28 <=? b0) && (b0 <=? 32)).

Definition space2 (b0 b1 : Z) : bool :=
  (b0 =? 194) && ((b1 =? 133) || (b1 =? 160)).

Definition space3 (b0 b1 b2 : Z) : bool :=
  ((b0 =? 225) && (b1 =? 154) && (b2 =? 128))
  || ((b0 =? 226) && (b1 =? 128)
      && (((128 <=? b2) && (b2 <=? 138)) || (b2 =? 168) || (b2 =? 169) || (b2 =? 175)))
  || ((b0 =? 226) && (b1 =? 129) && (b2 =? 159))
  || ((b0 =? 227) && (b1 =? 128) && (b2 =? 128)).

(** Drops the blank characters at the head of a byte sequence; with
    [backwards] the sequence is read from its end, so that the bytes of a
    character come last byte first. *)
Fixpoint drop_spaces (backwards : bool) (bytes : list Z) : list Z :=
  match bytes with
  | x :: r0 =>
      if space1 x then drop_spaces backwards r0
      else
        match r0 with
        | y :: r1 =>
            if (if backwards then space2 y x else space2 x y)
            then drop_spaces backwards r1
            else
              match r1 with
              | z :: r2 =>
                  if (if backwards then space3 z y x else space3 x y z)
                  then drop_spaces backwards r2
                  else bytes
              | [] => bytes
              end
        | [] => bytes
        end
  | [] => []
  end.

Definition decode_utf8 (bytes : list Z) : str :=
  string_of_list_ascii (map (fun b => ascii_of_N (Z.to_N b)) bytes).

(** [s.strip()]. *)
Definition strip (s : str) : str :=
  decode_utf8 (rev (drop_spaces true (rev (drop_spaces false (encode_utf8 s))))).

(** ["%0<width>d" % n] for [0 <= n]. *)
Definition zfill (width : nat) (n : Z) : str :=
  let digits := NilZero.string_of_uint (N.to_uint (Z.to_N n)) in
  (string_of_list_ascii (repeat "0"%char (width - String.length digits)) ++ digits)%string.

End Py.

(* ------------------------------------------------------------------ *)
(** ** SHA-1 (FIPS 180-4), as [hashlib.sha1(...).hexdigest()] computes it *)

Module Sha1.

Definition w32 (x : Z) : Z := Z.land x 4294967295.

Definition rotl (n x : Z) : Z :=
  w32 (Z.lor (Z.shiftl x n) (Z.shiftr x (32 - n))).

Definition not32 (x : Z) : Z := Z.lxor x 4294967295.

(** The message followed by the bit 1, zeros up to 56 modulo 64 bytes and
    the bit length on 64 bits, big endian. *)
Definition be_bytes (count : nat) (x : Z) : list Z :=
  map (fun i => Z.land (Z.shiftr x (8 * Z.of_nat i)) 255) (rev (seq 0 count)).

Definition pad (msg : list Z) : list Z :=
  let len := Z.of_nat (List.length msg) in
  (msg ++ [128] ++ repeat 0 (Z.to_nat ((55 - len) mod 64)) ++ be_bytes 8 (8 * len))%list.

(** Big-endian 32-bit words of a byte sequence whose length is a multiple
    of four. *)
Fixpoint words (bytes : list Z) : list Z :=
  match bytes with
  | b0 :: b1 :: b2 :: b3 :: rest =>
      Z.lor (Z.shiftl b0 24) (Z.lor (Z.shiftl b1 16) (Z.lor (Z.shiftl b2 8) b3))
      :: words rest
  | _ => []
  end.

(** Blocks of sixteen words; [n] bounds the number of blocks. *)
Fixpoint blocks (n : nat) (ws : list Z) : list (list Z) :=
  match n, ws with
  | S n', _ :: _ => firstn 16 ws :: blocks n' (skipn 16 ws)
  | _, _ => []
  end.

(** The message schedule: [w] holds W_0 .. W_(t-1), [n] words are added. *)
Fixpoint schedule (n : nat) (w : list Z) : list Z :=
  match n with
  | O => w
  | S n' =>
      let t := List.length w in
      let at_ (k : nat) := nth (t - k) w 0 in
      schedule n'
        (w ++ [rotl 1 (Z.lxor (Z.lxor (at_ 3%nat) (at_ 8%nat))
                              (Z.lxor (at_ 14%nat) (at_ 16%nat)))])%list
  end.

Definition f (t b c d : Z) : Z :=
  if t <? 20 then Z.lor (Z.land b c) (Z.land (not32 b) d)
  else if t <? 40 then Z.lxor (Z.lxor b c) d
  else if t <? 60 then Z.lor (Z.lor (Z.land b c) (Z.land b d)) (Z.land c d)
  else Z.lxor (Z.lxor b c) d.

Definition K (t : Z) : Z :=
  if t <? 20 then 1518500249
  else if t <? 40 then 1859775393
  else if t <? 60 then 2400959708
  else 3395469782.

Record regs : Type := Regs { ra : Z; rb : Z; rc : Z; rd : Z; re : Z }.

Definition H0 : regs := Regs 1732584193 4023233417 2562383102 271733878 3285377520.

Definition round (r : regs) (tw : Z * Z) : regs :=
  let (t, wt) := tw in
  let temp := w32 (rotl 5 (ra r) + f t (rb r) (rc r) (rd r) + re r + K t + wt) in
  Regs temp (ra r) (rotl 30 (rb r)) (rc r) (rd r).

Definition compress (h : regs) (block : list Z) : regs :=
  let w := schedule 64 block in
  let r := fold_left round (combine (map Z.of_nat (seq 0 80)) w) h in
  Regs (w32 (ra h + ra r)) (w32 (rb h + rb r)) (w32 (rc h + rc r))
       (w32 (rd h + rd r)) (w32 (re h + re r)).

Definition digest (msg : list Z) : regs :=
  let ws := words (pad msg) in
  fold_left compress (blocks (List.length ws) ws) H0.

Definition hex_digit (x : Z) : ascii :=
  if x <? 10 then ascii_of_N (Z.to_N (48 + x)) else ascii_of_N (Z.to_N (87 + x)).

Definition hex32 (x : Z) : string :=
  string_of_list_ascii
    (map (fun i => hex_digit (Z.land (Z.shiftr x (4 * Z.of_nat i)) 15)) (rev (seq 0 8))).

Definition hexdigest (msg : list Z) : string :=
  let r := digest msg in
  (hex32 (ra r) ++ hex32 (rb r) ++ hex32 (rc r) ++ hex32 (rd r) ++ hex32 (re r))%string.

End Sha1.

(* ------------------------------------------------------------------ *)
(** ** [datetime] values and time zones *)

Module Datetime.

(** A zone object is known by reference, so that [tz is mytz] is the
    equality of two references. *)
Definition tzref := string.

(** The two methods of the [tzinfo] interface the program relies on.
    [utcoffset] receives the wall-clock reading and the [fold] flag of the
    [datetime] it is asked about and gives the offset in microseconds;
    [fromutc] receives a UTC reading and gives the local reading and its
    [fold] flag. *)
Record tzimpl : Type := {
  utcoffset : Z -> bool -> Z;
  fromutc : Z -> Z * bool
}.

(** The zone objects behind the references. *)
Class TzDatabase : Type := zone : tzref -> tzimpl.

(** The zone of the machine: the fixed-offset zone object that
    [datetime._local_timezone] builds from [time.localtime] for a POSIX time
    stamp. [time.localtime] is taken to answer at every time stamp of the
    years 1 to 9999, as it does where [time_t] has 64 bits. *)
Class Machine : Type := local_timezone : Z -> tzref.

Record datetime : Type := {
  wall : Z;
  fold : bool;
  tzinfo : option tzref
}.

Definition US_PER_SECOND : Z := 1000000.
Definition US_PER_DAY : Z := 86400 * US_PER_SECOND.

(** *** The proleptic Gregorian calendar *)

Definition _is_leap (year : Z) : bool :=
  (year mod 4 =? 0) && (negb (year mod 100 =? 0) || (year mod 400 =? 0)).

Definition _days_before_year (year : Z) : Z :=
  let y := year - 1 in
  y * 365 + y / 4 - y / 100 + y / 400.

Definition _DAYS_IN_MONTH : list Z :=
  [-1; 31; 28; 31; 30; 31; 30; 31; 31; 30; 31; 30; 31].

Definition _DAYS_BEFORE_MONTH : list Z :=
  [-1; 0; 31; 59; 90; 120; 151; 181; 212; 243; 273; 304; 334].

Definition index (table : list Z) (i : Z) : Z := nth (Z.to_nat i) table 0.

Definition _days_before_month (year month : Z) : Z :=
  index _DAYS_BEFORE_MONTH month
  + (if (2 <? month) && _is_leap year then 1 else 0).

Definition _ymd2ord (year month day : Z) : Z :=
  _days_before_year year + _days_before_month year month + day.

Definition _DI400Y : Z := _days_before_year 401.
Definition _DI100Y : Z := _days_before_year 101.
Definition _DI4Y : Z := _days_before_year 5.

Definition _ord2ymd (ordinal : Z) : Z * Z * Z :=
  let n := ordinal - 1 in
  let n400 := n / _DI400Y in
  let n := n mod _DI400Y in
  let year := n400 * 400 + 1 in
  let n100 := n / _DI100Y in
  let n := n mod _DI100Y in
  let n4 := n / _DI4Y in
  let n := n mod _DI4Y in
  let n1 := n / 365 in
  let n := n mod 365 in
  let year := year + n100 * 100 + n4 * 4 + n1 in
  if (n1 =? 4) || (n100 =? 4) then (year - 1, 12, 31)
  else
    let leapyear := (n1 =? 3) && (negb (n4 =? 24) || (n100 =? 3)) in
    let month := Z.shiftr (n + 50) 5 in
    let preceding :=
      index _DAYS_BEFORE_MONTH month
      + (if (2 <? month) && leapyear then 1 else 0) in
    if n <? preceding then
      let month := month - 1 in
      let preceding :=
        preceding
        - (index _DAYS_IN_MONTH month
           + (if (month =? 2) && leapyear then 1 else 0)) in
      (year, month, n - preceding + 1)
    else (year, month, n - preceding + 1).

(** [datetime(year, month, day, hour, minute, second, microsecond, tzinfo)]. *)
Definition make (year month day hour minute second microsecond : Z)
                (tz : option tzref) : datetime :=
  {| wall := _ymd2ord year month day * US_PER_DAY
             + ((hour * 60 + minute) * 60 + second) * US_PER_SECOND
             + microsecond;
     fold := false;
     tzinfo := tz |}.

Definition MINYEAR : Z := 1.
Definition MAXYEAR : Z := 9999.

(** The readings a [datetime] can hold, from 0001-01-01T00:00:00 to
    9999-12-31T23:59:59.999999; building a value outside of them raises
    [OverflowError]. *)
Definition representable (reading : Z) : bool :=
  (_ymd2ord MINYEAR 1 1 * US_PER_DAY <=? reading)
  && (reading <? (_ymd2ord MAXYEAR 12 31 + 1) * US_PER_DAY).

(** The POSIX time stamp, in whole seconds, of a UTC reading. *)
Definition posix (utc : Z) : Z :=
  (utc - _ymd2ord 1970 1 1 * US_PER_DAY) / US_PER_SECOND.

Section Zones.
Context {tzdb : TzDatabase} {machine : Machine}.

(** [dt.utcoffset()]: [None] for a naive value, else what the zone says. *)
Definition utcoffset_of (dt : datetime) : option Z :=
  match tzinfo dt with
  | None => None
  | Some tz => Some (utcoffset (zone tz) (wall dt) (fold dt))
  end.


Definition _format_time (hh mm ss us : Z) : string :=
  (Py.zfill 2 hh ++ ":" ++ Py.zfill 2 mm ++ ":" ++ Py.zfill 2 ss
   ++ (if (us =? 0)%Z then EmptyString else "." ++ Py.zfill 6 us))%string.

Definition _format_offset (off : option Z) : string :=
  match off with
  | None => EmptyString
  | Some off =>
      let sign := if off <? 0 then "-"%string else "+"%string in
      let off := if off <? 0 then - off else off in
      let hh := off / (3600 * US_PER_SECOND) in
      let mm := off mod (3600 * US_PER_SECOND) in
      let ss := mm mod (60 * US_PER_SECOND) in
      let mm := mm / (60 * US_PER_SECOND) in
      (sign ++ Py.zfill 2 hh ++ ":" ++ Py.zfill 2 mm
       ++ (if (ss =? 0)%Z then EmptyString
           else ":" ++ Py.zfill 2 (ss / US_PER_SECOND)%Z
                ++ (if (ss mod US_PER_SECOND =? 0)%Z then EmptyString
                    else "." ++ Py.zfill 6 (ss mod US_PER_SECOND)%Z)))%string
  end.

(** [dt.isoformat()]. *)
Definition isoformat (dt : datetime) : string :=
  let '(year, month, day) := _ord2ymd (wall dt / US_PER_DAY) in
  let tod := wall dt mod US_PER_DAY in
  let us := tod mod US_PER_SECOND in
  let secs := tod / US_PER_SECOND in
  (Py.zfill 4 year ++ "-" ++ Py.zfill 2 month ++ "-" ++ Py.zfill 2 day ++ "T"
   ++ _format_time (secs / 3600)%Z (secs / 60 mod 60)%Z (secs mod 60)%Z us
   ++ _format_offset (utcoffset_of dt))%string.

(** [dt.replace(tzinfo=tz)], where [tz] may be [None]: every other field is
    kept. *)
Definition replace_tzinfo (dt : datetime) (tz : option tzref) : datetime :=
  {| wall := wall dt; fold := fold dt; tzinfo := tz |}.

(** [dt.astimezone(tz)] for an aware [dt] whose zone is [mytz]; [None]
    stands for [OverflowError]. With [tz] a zone object, the value itself
    when [tz is mytz]; else [self - offset], which must be representable, is
    handed to [fromutc] of the zone, whose reading must be representable
    too. With [tz] being [None] the zone is the new object made for the
    machine's zone at that instant, which is never the object [mytz]. *)
Definition astimezone (dt : datetime) (mytz : tzref) (tz : option tzref)
  : option datetime :=
  let myoffset := utcoffset (zone mytz) (wall dt) (fold dt) in
  let utc := wall dt - myoffset in
  let convert (tz : tzref) : option datetime :=
    if representable utc then
      let (w, f) := fromutc (zone tz) utc in
      if representable w then Some {| wall := w; fold := f; tzinfo := Some tz |}
      else None
    else None in
  match tz with
  | None => convert (local_timezone (posix utc))
  | Some tz => if String.eqb tz mytz then Some dt else convert tz
  end.

End Zones.

(** A zone at a constant offset from UTC, as [tz.tzoffset(None, seconds)]. *)
Definition tzoffset (seconds : Z) : tzimpl :=
  {| utcoffset := fun _ _ => seconds * US_PER_SECOND;
     fromutc := fun utc => (utc + seconds * US_PER_SECOND, false) |}.


End Datetime.

(* ------------------------------------------------------------------ *)
(** ** The Pronote service, exceptions and the program's effects *)

Module Pronote.
Import Py Datetime.
Open Scope string_scope.
Open Scope Z_scope.

Definition date := Z.

(** A lesson of [pronotepy]: the program reads every field through
    [getattr] with a default, so every field may be missing. *)
Record Lesson : Type := {
  start : attr datetime;
  end_ : attr datetime;
  subject : attr str;
  subject_name : attr str;
  classroom : attr str;
  classroom_name : attr str;
  teacher : attr str;
  teacher_name : attr str;
  group_name : attr str;
  canceled : attr bool
}.

Inductive Exception : Type :=
| RuntimeError (msg : str)
| OverflowError (msg : str)
| LibraryError (msg : str).

Definition result (A : Type) : Type := (Exception + A)%type.

(** A logged-in session, and [pronotepy.Client(url, username, password)]
    that opens one; both answer as the service does at the time of the
    call. *)
Record Client : Type := {
  logged_in : bool;
  timetable : date -> date -> result (list Lesson)
}.

Definition Pronotepy : Type := str -> str -> str -> result Client.

Record PronoteBackend : Type := {
  url : str;
  user : str;
  pwd : str;
  ent_name : str;
  local_tz : option tzref;
  cache_ttl : Z;
  _cache_until : Z;
  _cache_range : option date * option date;
  _cache_lessons : list Lesson
}.

Definition __init__ (url user pwd ent_name : str) (local_tz : option tzref) (cache_ttl : Z)
  : PronoteBackend :=
  {| url := url;
     user := user;
     pwd := pwd;
     ent_name := strip ent_name;
     local_tz := local_tz;
     cache_ttl := cache_ttl;
     _cache_until := 0;
     _cache_range := (None, None);
     _cache_lessons := [] |}.

(** What a method can see and change: the backend object, and the windows
    [_fetch_lessons] was called with so far, oldest first. *)
Record World : Type := {
  self : PronoteBackend;
  upstream_calls : list (date * date)
}.

(** A method either returns or raises; what it changed before raising
    stays changed. *)
Definition M (A : Type) : Type := World -> result A * World.

Definition ret {A : Type} (a : A) : M A := fun w => (inr a, w).

Definition raise {A : Type} (e : Exception) : M A := fun w => (inl e, w).

Definition bind {A B : Type} (m : M A) (k : A -> M B) : M B :=
  fun w =>
    match m w with
    | (inr a, w') => k a w'
    | (inl e, w') => (inl e, w')
    end.

(** The outcome of a call into the library. *)
Definition lift {A : Type} (r : result A) : M A := fun w => (r, w).

Definition get_self : M PronoteBackend := fun w => (inr (self w), w).

Definition set_self (f : PronoteBackend -> PronoteBackend) : M unit :=
  fun w => (inr tt, {| self := f (self w); upstream_calls := upstream_calls w |}).

Definition record_fetch (start_date end_date : date) : M unit :=
  fun w => (inr tt, {| self := self w;
                       upstream_calls := (upstream_calls w ++ [(start_date, end_date)])%list |}).

Declare Scope method_scope.
Delimit Scope method_scope with method.
Notation "x <- m ;; k" := (bind m (fun x => k))
  (at level 61, m at next level, right associativity) : method_scope.
Notation "m ;; k" := (bind m (fun _ => k))
  (at level 61, right associativity) : method_scope.

(** The three assignments of [get_lessons]. *)
Definition set_cache_lessons (lessons : list Lesson) (b : PronoteBackend) : PronoteBackend :=
  {| url := url b; user := user b; pwd := pwd b; ent_name := ent_name b;
     local_tz := local_tz b; cache_ttl := cache_ttl b;
     _cache_until := _cache_until b;
     _cache_range := _cache_range b;
     _cache_lessons := lessons |}.

Definition set_cache_range (range : option date * option date) (b : PronoteBackend)
  : PronoteBackend :=
  {| url := url b; user := user b; pwd := pwd b; ent_name := ent_name b;
     local_tz := local_tz b; cache_ttl := cache_ttl b;
     _cache_until := _cache_until b;
     _cache_range := range;
     _cache_lessons := _cache_lessons b |}.

Definition set_cache_until (until : Z) (b : PronoteBackend) : PronoteBackend :=
  {| url := url b; user := user b; pwd := pwd b; ent_name := ent_name b;
     local_tz := local_tz b; cache_ttl := cache_ttl b;
     _cache_until := until;
     _cache_range := _cache_range b;
     _cache_lessons := _cache_lessons b |}.

(** [stored == d] for a slot of [_cache_range], which holds [None] or a date. *)
Definition slot_eq (stored : option date) (d : date) : bool :=
  match stored with
  | Some d' => d' =? d
  | None => false
  end.

Section Methods.
Variable pronotepy : Pronotepy.
Open Scope method_scope.

Definition _login : M Client :=
  me <- get_self ;;
  if truthy (Some (ent_name me)) then
    raise (RuntimeError "Cette version de pronotepy ne gère pas ent_list directement.")
  else
    client <- lift (pronotepy (url me) (user me) (pwd me)) ;;
    if negb (logged_in client) then
      raise (RuntimeError "Échec de connexion (vérifie URL/identifiants).")
    else ret client.

Definition _fetch_lessons (start_date end_date : date) : M (list Lesson) :=
  record_fetch start_date end_date ;;
  client <- _login ;;
  lift (timetable client start_date end_date).

(** [now] is the reading [time.time()] gives to this call. *)
Definition get_lessons (now : Z) (start_date end_date : date) : M (list Lesson) :=
  me <- get_self ;;
  if (now <? _cache_until me)
     && slot_eq (fst (_cache_range me)) start_date
     && slot_eq (snd (_cache_range me)) end_date
  then ret (_cache_lessons me)
  else
    lessons <- _fetch_lessons start_date end_date ;;
    set_self (set_cache_lessons lessons) ;;
    set_self (set_cache_range (Some start_date, Some end_date)) ;;
    set_self (set_cache_until (now + cache_ttl me)) ;;
    ret lessons.

End Methods.

(** *** Sequences of requests *)

Record Call : Type := {
  at_time : Z;
  window : date * date;
  service : Pronotepy
}.

Definition perform (c : Call) : M (list Lesson) :=
  get_lessons (service c) (at_time c) (fst (window c)) (snd (window c)).

Definition run (calls : list Call) (w : World) : World :=
  fold_left (fun w c => snd (perform c w)) calls w.

(** The world of a backend that has served no request yet. *)
Definition fresh (b : PronoteBackend) : World :=
  {| self := b; upstream_calls := [] |}.

(** Whether a call, taking [w] to [w'] with outcome [r], stored a result:
    it returned and it went to the service. *)
Definition stored {A : Type} (w : World) (r : result A) (w' : World) : bool :=
  match r with
  | inr _ => negb (Nat.eqb (List.length (upstream_calls w')) (List.length (upstream_calls w)))
  | inl _ => false
  end.

(** The clock reading of the call that stored what the cache holds after
    [calls], if any call did: the creation time of the cached result. *)
Fixpoint creation_time (calls : list Call) (w : World) (created : option Z) : option Z :=
  match calls with
  | [] => created
  | c :: rest =>
      let (r, w') := perform c w in
      creation_time rest w' (if stored w r w' then Some (at_time c) else created)
  end.

(** Requests arrive in the order of their clock readings, none before [t]. *)
Fixpoint chronological_from (t : Z) (calls : list Call) : Prop :=
  match calls with
  | [] => True
  | c :: rest => t <= at_time c /\ chronological_from (at_time c) rest
  end.

Definition chronological (calls : list Call) : Prop :=
  match calls with
  | [] => True
  | c :: rest => chronological_from (at_time c) rest
  end.

End Pronote.

(* ------------------------------------------------------------------ *)
(** ** Time normalisation, event identity and the calendar *)

Module Feed.
Import Py Datetime Pronote.
Open Scope string_scope.
Open Scope Z_scope.

(** A property value of [icalendar]: text or a date and time. *)
Inductive ical : Type :=
| Text (s : str)
| Time (dt : datetime).

(** A component is the list of its properties in the order of the calls
    to [add]. *)
Definition Event : Type := list (str * ical).

Record Calendar : Type := {
  properties : list (str * ical);
  subcomponents : list Event
}.

Definition add (component : list (str * ical)) (name : str) (value : ical)
  : list (str * ical) :=
  (component ++ [(name, value)])%list.

Definition add_component (cal : Calendar) (ev : Event) : Calendar :=
  {| properties := properties cal;
     subcomponents := (subcomponents cal ++ [ev])%list |}.

(** The value of the first property called [name], if there is one. *)
Fixpoint property (name : str) (component : list (str * ical)) : option ical :=
  match component with
  | [] => None
  | (n, v) :: rest => if String.eqb n name then Some v else property name rest
  end.

(** [PronoteBackend._uid_for], a static method. *)
Definition _uid_for {tzdb : TzDatabase} (start_dt : datetime) (title room teacher : str)
  : str :=
  let base := isoformat start_dt ++ "|" ++ title ++ "|" ++ room ++ "|" ++ teacher in
  Sha1.hexdigest (encode_utf8 base) ++ "@pronote-ics".

Section Methods.
Context {tzdb : TzDatabase} {machine : Machine}.
Variable me : PronoteBackend.

(** [self.local_tz] is [None] when [tz.gettz] did not know the name of the
    zone; [astimezone] raises [OverflowError] when the time does not fit the
    years 1 to 9999 on its way to the zone. *)
Definition _to_local (dt : option datetime) : result (option datetime) :=
  match dt with
  | None => inr None
  | Some dt =>
      match tzinfo dt with
      | None => inr (Some (replace_tzinfo dt (local_tz me)))
      | Some mytz =>
          match astimezone dt mytz (local_tz me) with
          | Some local => inr (Some local)
          | None => inl (OverflowError "date value out of range")
          end
      end
  end.

(** The local variables of the loop body of [lessons_to_ics]. *)
Definition title_of (lesson : Lesson) : str :=
  or_else (getattr (subject lesson) None)
          (or_else (getattr (subject_name lesson) (Some EmptyString)) "Cours").

Definition room_of (lesson : Lesson) : str :=
  or_else (getattr (classroom lesson) (Some EmptyString))
          (or_else (getattr (classroom_name lesson) (Some EmptyString)) EmptyString).

Definition teacher_of (lesson : Lesson) : str :=
  or_else (getattr (teacher lesson) (Some EmptyString))
          (or_else (getattr (teacher_name lesson) (Some EmptyString)) EmptyString).

Definition group_of (lesson : Lesson) : str :=
  or_else (getattr (group_name lesson) (Some EmptyString)) EmptyString.

Definition canceled_of (lesson : Lesson) : bool :=
  bool_of (getattr (canceled lesson) (Some false)).

(** The loop body after the test: lines 142 to 164, for the normalised
    [start] and [end_]. *)
Definition event_for (lesson : Lesson) (start end_ : datetime) : Event :=
  let title := title_of lesson in
  let room := room_of lesson in
  let teacher := teacher_of lesson in
  let group := group_of lesson in
  let canceled := canceled_of lesson in
  let ev : Event := [] in
  let ev := add ev "summary"
              (Text (if negb (truthy (Some group)) then title
                     else title ++ " (" ++ group ++ ")")) in
  let desc_lines : list str := [] in
  let desc_lines :=
    if truthy (Some teacher) then (desc_lines ++ [("Enseignant·e : " ++ teacher)%string])%list
    else desc_lines in
  let desc_lines :=
    if truthy (Some room) then (desc_lines ++ [("Salle : " ++ room)%string])%list
    else desc_lines in
  let desc_lines :=
    if canceled then (desc_lines ++ ["⚠️ Séance annulée"])%list
    else desc_lines in
  let ev := add ev "description"
              (Text (match desc_lines with
                     | [] => "Séance"
                     | _ => join (String "010"%char EmptyString) desc_lines
                     end)) in
  let ev := if truthy (Some room) then add ev "location" (Text room) else ev in
  let ev := add ev "uid" (Text (_uid_for start title room teacher)) in
  let ev := add ev "dtstart" (Time start) in
  let ev := add ev "dtend" (Time end_) in
  let ev := add ev "status" (Text (if canceled then "CANCELLED" else "CONFIRMED")) in
  ev.

(** One turn of the loop. Both times are normalised first, the start
    before the end, and an exception of either leaves the loop; then
    [inr None] when the turn ends at [continue], else the event handed to
    [add_component]. A [datetime] is always true, so [start and end] is false
    exactly when one of the two is [None]. *)
Definition event_of (lesson : Lesson) : result (option Event) :=
  match _to_local (getattr (start lesson) None) with
  | inl e => inl e
  | inr start =>
      match _to_local (getattr (end_ lesson) None) with
      | inl e => inl e
      | inr end_ =>
          match start, end_ with
          | Some start, Some end_ => inr (Some (event_for lesson start end_))
          | _, _ => inr None
          end
      end
  end.

(** The loop over the lessons, from the calendar built so far: the first
    exception ends it. *)
Fixpoint for_lessons (cal : Calendar) (lessons : list Lesson) : result Calendar :=
  match lessons with
  | [] => inr cal
  | lesson :: rest =>
      match event_of lesson with
      | inl e => inl e
      | inr None => for_lessons cal rest
      | inr (Some ev) => for_lessons (add_component cal ev) rest
      end
  end.

(** The calendar [lessons_to_ics] hands to [to_ical], or the exception that
    ended the loop. *)
Definition lessons_to_ics (lessons : list Lesson) : result Calendar :=
  let cal := {| properties := []; subcomponents := [] |} in
  let cal := {| properties := add (properties cal) "prodid" (Text "-//Pronote ICS//Assia//FR");
                subcomponents := subcomponents cal |} in
  let cal := {| properties := add (properties cal) "version" (Text "2.0");
                subcomponents := subcomponents cal |} in
  for_lessons cal lessons.

(** A lesson whose both times normalise to a value. *)
Definition resolvable (lesson : Lesson) : bool :=
  match _to_local (getattr (start lesson) None),
        _to_local (getattr (end_ lesson) None) with
  | inr (Some _), inr (Some _) => true
  | _, _ => false
  end.

(** A lesson neither time of which makes [_to_local] raise. *)
Definition normalisable (lesson : Lesson) : bool :=
  match _to_local (getattr (start lesson) None),
        _to_local (getattr (end_ lesson) None) with
  | inr _, inr _ => true
  | _, _ => false
  end.

End Methods.

(** The same lesson with its [canceled] attribute set. *)
Definition with_canceled (flag : bool) (lesson : Lesson) : Lesson :=
  {| start := start lesson; end_ := end_ lesson;
     subject := subject lesson; subject_name := subject_name lesson;
     classroom := classroom lesson; classroom_name := classroom_name lesson;
     teacher := teacher lesson; teacher_name := teacher_name lesson;
     group_name := group_name lesson;
     canceled := Holds (Some flag) |}.

(** An attribute that gives no text: it is missing, or [None], or the empty
    string; and an attribute that gives the text [s]. *)
Definition blank (a : attr str) : Prop :=
  a = Missing \/ a = Holds None \/ a = Holds (Some EmptyString).

Definition gives (a : attr str) (s : str) : Prop :=
  a = Holds (Some s) /\ s <> EmptyString.

End Feed.

(* ------------------------------------------------------------------ *)
(** ** Concrete data: two zones, three lessons, a backend and two services *)

Module Sample.
Import Py Datetime Pronote Feed.
Open Scope string_scope.
Open Scope Z_scope.

(** 2024-03-31T01:00:00 UTC, when Paris went from one to two hours ahead. *)
Definition spring_2024 : Z := (_ymd2ord 2024 3 31 * 86400 + 3600) * US_PER_SECOND.

(** [Europe/Paris] about the spring of 2024, as [tz.gettz] reads it from the
    zone file: wall-clock readings before 02:00 on 2024-03-31 are one hour
    ahead of UTC, later ones two hours (the change of the autumn is not in
    this excerpt). *)
Definition europe_paris : tzimpl :=
  {| utcoffset := fun wall _ =>
       if wall <? spring_2024 + 3600 * US_PER_SECOND
       then 3600 * US_PER_SECOND else 7200 * US_PER_SECOND;
     fromutc := fun utc =>
       if utc <? spring_2024
       then (utc + 3600 * US_PER_SECOND, false)
       else (utc + 7200 * US_PER_SECOND, false) |}.

(** The zones by name; any other name than [Europe/Paris] is UTC here. *)
Definition zones : TzDatabase :=
  fun name => if String.eqb name "Europe/Paris" then europe_paris else tzoffset 0.

(** A machine whose own zone is UTC. *)
Definition utc_machine : Machine := fun _ => "UTC".

Definition backend : PronoteBackend :=
  __init__ "https://demo.index-education.net/pronote/eleve.html" "demonstration"
           "secret" EmptyString (Some "Europe/Paris") 120.

Definition monday_8 : datetime := make 2024 3 4 8 0 0 0 (Some "Europe/Paris").
Definition monday_9 : datetime := make 2024 3 4 9 0 0 0 (Some "Europe/Paris").

(** LessonRecord(start=2024-03-04T08:00+01:00, end=2024-03-04T09:00+01:00,
    subject=Math, classroom=B12, teacher=Dupont, canceled=False). *)
Definition math : Lesson :=
  {| start := Holds (Some monday_8);
     end_ := Holds (Some monday_9);
     subject := Holds (Some "Math");
     subject_name := Missing;
     classroom := Holds (Some "B12");
     classroom_name := Missing;
     teacher := Holds (Some "Dupont");
     teacher_name := Missing;
     group_name := Missing;
     canceled := Holds (Some false) |}.

(** A lesson that names neither its subject nor its room, teacher or group. *)
Definition anonymous : Lesson :=
  {| start := Holds (Some monday_8);
     end_ := Holds (Some monday_9);
     subject := Holds None;
     subject_name := Holds (Some EmptyString);
     classroom := Missing;
     classroom_name := Holds None;
     teacher := Missing;
     teacher_name := Missing;
     group_name := Holds None;
     canceled := Missing |}.

(** A lesson without a start. *)
Definition untimed : Lesson :=
  {| start := Holds None;
     end_ := Holds (Some monday_9);
     subject := Holds (Some "Sport");
     subject_name := Missing;
     classroom := Missing;
     classroom_name := Missing;
     teacher := Missing;
     teacher_name := Missing;
     group_name := Holds (Some "G1");
     canceled := Missing |}.

(** The last half hour of the year 9999 in UTC, which no zone ahead of UTC
    can show. *)
Definition last_half_hour : datetime := make 9999 12 31 23 30 0 0 (Some "UTC").

(** A lesson without a start whose end is in that half hour. *)
Definition endless : Lesson :=
  {| start := Holds None;
     end_ := Holds (Some last_half_hour);
     subject := Holds (Some "Sport");
     subject_name := Missing;
     classroom := Missing;
     classroom_name := Missing;
     teacher := Missing;
     teacher_name := Missing;
     group_name := Missing;
     canceled := Missing |}.

(** The backend when [tz.gettz] did not know the name of the zone. *)
Definition unzoned : PronoteBackend :=
  __init__ "https://demo.index-education.net/pronote/eleve.html" "demonstration"
           "secret" EmptyString None 120.

(** A service that answers every window with [lessons]. *)
Definition serving (lessons : list Lesson) : Pronotepy :=
  fun _ _ _ => inr {| logged_in := true; timetable := fun _ _ => inr lessons |}.

(** A service whose timetable request fails. *)
Definition failing : Pronotepy :=
  fun _ _ _ => inr {| logged_in := true;
                      timetable := fun _ _ => inl (LibraryError "timetable unavailable") |}.

(** The window of a request made on 2024-03-04 for [weeks] weeks. *)
Definition window_of (weeks : Z) : date * date :=
  (_ymd2ord 2024 3 4 - 7, _ymd2ord 2024 3 4 + 7 * weeks).

Definition call (t : Z) (weeks : Z) (p : Pronotepy) : Call :=
  {| at_time := t; window := window_of weeks; service := p |}.

End Sample.

(* ------------------------------------------------------------------ *)
(** ** The terminal dialogue: [prompt_non_empty], [choose_optional],
       [prompt_int] and the configuration they produce *)

Module Console.
Import Py Datetime Pronote.
Open Scope string_scope.
Open Scope Z_scope.

(** [str(n)] for an integer. *)
Definition str_of_int (n : Z) : str :=
  if n <? 0 then "-" ++ NilZero.string_of_uint (N.to_uint (Z.to_N (- n)))
  else NilZero.string_of_uint (N.to_uint (Z.to_N n)).

Definition newline : str := String "010"%char EmptyString.

(** [print(text)] on what was written so far. *)
Definition print (stdout : list str) (text : str) : list str :=
  (stdout ++ [(text ++ newline)%string])%list.

(** A dialogue takes the lines still to be read and what was written so
    far; it gives its value, or [None] when [input] met the end of the input
    and raised [EOFError], with the lines left and what is written then. *)
Definition dialogue (A : Type) : Type := option A * (list str * list str).

(** Each turn of the loop reads one line, so the loop is a recursion on the
    lines to be read. *)
Fixpoint prompt_non_empty (label : str) (stdin stdout : list str) : dialogue str :=
  match stdin with
  | [] => (None, ([], (stdout ++ [label])%list))
  | line :: rest =>
      let stdout := (stdout ++ [label])%list in
      let v := strip line in
      if truthy (Some v) then (Some v, (rest, stdout))
      else prompt_non_empty label rest (print stdout "⛔ Entrée vide, réessaie.")
  end.

Definition choose_optional (label default : str) (stdin stdout : list str) : dialogue str :=
  let stdout := (stdout ++ [(label ++ " [" ++ default ++ "]: ")%string])%list in
  match stdin with
  | [] => (None, ([], stdout))
  | line :: rest =>
      let v := strip line in
      (Some (or_else (Some v) default), (rest, stdout))
  end.

Section Builtins.
(** The builtin [int] on a string: [None] when it raises [ValueError]. *)
Variable int : str -> option Z.

Fixpoint prompt_int (label : str) (default min_v max_v : Z) (stdin stdout : list str)
  : dialogue Z :=
  let asked := (stdout ++ [(label ++ " [" ++ str_of_int default ++ "]: ")%string])%list in
  match stdin with
  | [] => (None, ([], asked))
  | line :: rest =>
      let s := or_else (Some (strip line)) (str_of_int default) in
      match int s with
      | Some x =>
          if (min_v <=? x) && (x <=? max_v) then (Some x, (rest, asked))
          else
            prompt_int label default min_v max_v rest
              (print asked ("⛔ Entier entre " ++ str_of_int min_v ++ " et "
                            ++ str_of_int max_v ++ " attendu."))
      | None =>
          prompt_int label default min_v max_v rest
            (print asked "⛔ Entier invalide, réessaie.")
      end
  end.

(** The values asked at the start of the program. *)
Record Config : Type := {
  PRONOTE_URL : str;
  PRONOTE_USERNAME : str;
  PRONOTE_PASSWORD : str;
  PRONOTE_ENT : str;
  TIMEZONE : str;
  DEFAULT_WEEKS_FORWARD : Z;
  CACHE_TTL_SECONDS : Z;
  PORT : Z
}.

(** [a] then [k] on its value, from where [a] left the terminal. *)
Definition next {A B : Type} (a : dialogue A) (k : A -> list str -> list str -> dialogue B)
  : dialogue B :=
  match a with
  | (Some v, (stdin, stdout)) => k v stdin stdout
  | (None, terminal) => (None, terminal)
  end.

(** Lines 62 to 70; [password] is what [getpass] reads from the terminal
    without echo. *)
Definition configure (password : str) (stdin : list str) : dialogue Config :=
  let stdout := print [] "=== Pronote → ICS (serveur local) ===" in
  next (prompt_non_empty
          "URL Pronote (ex: https://xxxxx.index-education.net/pronote/eleve.html): "
          stdin stdout) (fun url stdin stdout =>
  next (prompt_non_empty "Identifiant: " stdin stdout) (fun user stdin stdout =>
  let stdout := (stdout ++ ["Mot de passe (invisible): "])%list in
  next (choose_optional "ENT (laisser vide si aucun, ex: EcoleDirecte)" EmptyString
          stdin stdout) (fun ent stdin stdout =>
  next (choose_optional "Fuseau horaire IANA" "Europe/Paris" stdin stdout)
       (fun timezone stdin stdout =>
  next (prompt_int "Nombre de semaines à exposer par défaut (1..26)" 8 1 26 stdin stdout)
       (fun weeks stdin stdout =>
  next (prompt_int "TTL du cache Pronote en secondes (60..900)" 120 60 900 stdin stdout)
       (fun ttl stdin stdout =>
  next (prompt_int "Port HTTP à utiliser (1024..65535)" 8000 1024 65535 stdin stdout)
       (fun port stdin stdout =>
  (Some {| PRONOTE_URL := url;
           PRONOTE_USERNAME := user;
           PRONOTE_PASSWORD := password;
           PRONOTE_ENT := ent;
           TIMEZONE := timezone;
           DEFAULT_WEEKS_FORWARD := weeks;
           CACHE_TTL_SECONDS := ttl;
           PORT := port |}, (stdin, stdout))))))))).

End Builtins.

(** Lines 75 and 171 to 173. [gettz] is [tz.gettz]: the zone object of a
    name, or [None] when it knows no zone of that name. *)
Definition backend_of (gettz : str -> option tzref) (c : Config) : PronoteBackend :=
  __init__ (PRONOTE_URL c) (PRONOTE_USERNAME c) (PRONOTE_PASSWORD c) (PRONOTE_ENT c)
           (gettz (TIMEZONE c)) (CACHE_TTL_SECONDS c).

End Console.

(* ------------------------------------------------------------------ *)
(** ** The request handler: [ICSRequestHandler] *)

Module Server.
Import Py Datetime Pronote Feed Console.
Open Scope string_scope.
Open Scope Z_scope.

(** What the handler sends: the status of [send_response], the headers of
    [send_header] in their order and the bytes given to [wfile.write]. *)
Record Response : Type := {
  status : Z;
  headers : list (str * str);
  body : str
}.

(** [len(data)] for bytes. *)
Definition len (data : str) : Z := Z.of_nat (String.length data).

Definition _send_400 (msg : str) : Response :=
  let data := msg in
  {| status := 400;
     headers := [("Content-Type", "text/plain; charset=utf-8");
                 ("Content-Length", str_of_int (len data))];
     body := data |}.

Definition _send_500 (msg : str) : Response :=
  let data := msg in
  {| status := 500;
     headers := [("Content-Type", "text/plain; charset=utf-8");
                 ("Content-Length", str_of_int (len data))];
     body := data |}.

Definition _send_ics (ics_bytes : str) : Response :=
  {| status := 200;
     headers := [("Content-Type", "text/calendar; charset=utf-8");
                 ("Content-Length", str_of_int (len ics_bytes))];
     body := ics_bytes |}.

(** [d.get(key)] on a dictionary kept as the list of its items. *)
Fixpoint dict_get (d : list (str * list str)) (key : str) : option (list str) :=
  match d with
  | [] => None
  | (k, v) :: rest => if String.eqb k key then Some v else dict_get rest key
  end.

(** [str(e)] for an exception. *)
Definition str_of_exception (e : Exception) : str :=
  match e with
  | RuntimeError msg => msg
  | OverflowError msg => msg
  | LibraryError msg => msg
  end.

Definition quote : str := String "034"%char EmptyString.

Section Handler.
Context {tzdb : TzDatabase} {machine : Machine}.
Variable int : str -> option Z.
(** [Calendar.to_ical], the serialisation of [icalendar], which may raise. *)
Variable to_ical : Calendar -> result str.
Variable DEFAULT_WEEKS_FORWARD : Z.
Variable pronotepy : Pronotepy.

(** The first [try] of [do_GET]: [qs] is what [parse_qs] made of the query;
    a missing value in the list and a string [int] refuses both end in the
    [except] branch. *)
Definition weeks_of (qs : list (str * list str)) : Z :=
  match (match dict_get qs "weeks" with
         | Some values => values
         | None => [str_of_int DEFAULT_WEEKS_FORWARD]
         end) with
  | [] => DEFAULT_WEEKS_FORWARD
  | first :: _ =>
      match int first with
      | None => DEFAULT_WEEKS_FORWARD
      | Some weeks =>
          if (weeks <? 1) || (26 <? weeks) then DEFAULT_WEEKS_FORWARD else weeks
      end
  end.

(** The second [try] of [do_GET] once the window is known: the lessons,
    the calendar and its bytes; an exception of any of the three, the cache
    being stored or not, is answered by [_send_500]. *)
Definition calendar_answer (now : Z) (start_date end_date : date) : World -> Response * World :=
  fun w =>
    match get_lessons pronotepy now start_date end_date w with
    | (inr lessons, w') =>
        match lessons_to_ics (self w') lessons with
        | inr cal =>
            match to_ical cal with
            | inr ics_bytes => (_send_ics ics_bytes, w')
            | inl e => (_send_500 ("Erreur génération ICS: " ++ str_of_exception e), w')
            end
        | inl e => (_send_500 ("Erreur génération ICS: " ++ str_of_exception e), w')
        end
    | (inl e, w') =>
        (_send_500 ("Erreur génération ICS: " ++ str_of_exception e), w')
    end.

(** [do_GET] for a request whose [urlparse] gives the path [path] and whose
    query [parse_qs] reads as [qs]; [today] is the date in the local zone and
    [now] the reading of [time.time()] in [get_lessons]. The backend is the
    one of the world. [today] is what the clock of the machine shows, taken
    to be far enough from the years 1 and 9999 for the two dates of the
    window to exist. The connection takes every byte written to it: an
    error of the socket is not represented. *)
Definition do_GET (path : str) (qs : list (str * list str)) (today : date) (now : Z)
  : World -> Response * World :=
  fun w =>
    if String.eqb path "/health" then
      let data := "{" ++ quote ++ "ok" ++ quote ++ ": true}" in
      ({| status := 200;
          headers := [("Content-Type", "application/json");
                      ("Content-Length", str_of_int (len data))];
          body := data |}, w)
    else if negb (String.eqb path "/calendar.ics" || String.eqb path "/calendar") then
      (_send_400 "Utilise /calendar.ics (option: ?weeks=8)", w)
    else
      let weeks := weeks_of qs in
      let start_date := today - 7 in
      let end_date := today + 7 * weeks in
      calendar_answer now start_date end_date w.

End Handler.

(** The value of the first header called [name]. *)
Fixpoint header (name : str) (hs : list (str * str)) : option str :=
  match hs with
  | [] => None
  | (n, v) :: rest => if String.eqb n name then Some v else header name rest
  end.

End Server.

(* ------------------------------------------------------------------ *)
(** ** What the cache holds and where it came from *)

Module Provenance.
Import Py Datetime Pronote.
Open Scope Z_scope.

(** A stored result: the clock reading of the call that fetched it, the
    window it was asked for and the lessons the service gave. *)
Record Fetched : Type := {
  fetched_at : Z;
  fetched_for : date * date;
  fetched : list Lesson
}.

(** The last result a call of the sequence stored, if any. *)
Fixpoint last_fetched (calls : list Call) (w : World) (acc : option Fetched)
  : option Fetched :=
  match calls with
  | [] => acc
  | c :: rest =>
      let (r, w') := perform c w in
      last_fetched rest w'
        (match r with
         | inr lessons =>
             if stored w r w'
             then Some {| fetched_at := at_time c; fetched_for := window c;
                          fetched := lessons |}
             else acc
         | inl _ => acc
         end)
  end.

(** All calls of a sequence ask for the window [W]. *)
Definition all_for (W : date * date) (calls : list Call) : Prop :=
  Forall (fun c => window c = W) calls.

(** The clock reading of the last call of a sequence, [t] when it is empty. *)
Definition last_time (calls : list Call) (t : Z) : Z := last (map at_time calls) t.

(** What the cache holds is what the last storing call fetched. *)
Definition holds (w : World) (acc : option Fetched) : Prop :=
  match acc with
  | Some f =>
      _cache_range (self w) = (Some (fst (fetched_for f)), Some (snd (fetched_for f)))
      /\ _cache_lessons (self w) = fetched f
      /\ _cache_until (self w) = fetched_at f + cache_ttl (self w)
  | None => _cache_range (self w) = (None, None)
  end.

End Provenance.

(* ------------------------------------------------------------------ *)
(** ** More concrete data: a reader of decimal numerals and a rendering *)

Module Demo.
Import Py Datetime Pronote Feed Console Server.
Open Scope string_scope.
Open Scope Z_scope.

(** Reads an unsigned decimal numeral; stands for [int] on such strings. *)
Fixpoint digits (s : str) (acc : Z) : option Z :=
  match s with
  | EmptyString => Some acc
  | String c rest =>
      let d := Z.of_N (N_of_ascii c) - 48 in
      if (0 <=? d) && (d <=? 9) then digits rest (10 * acc + d) else None
  end.

Definition decimal (s : str) : option Z :=
  match s with
  | EmptyString => None
  | _ => digits s 0
  end.

(** Writes the text properties of the events, one per line; stands for
    [to_ical]. *)
Definition render (cal : Calendar) : result str :=
  inr (join newline
    (map (fun ev =>
            join ";" (map (fun p => match snd p with
                                    | Text s => fst p ++ ":" ++ s
                                    | Time dt => fst p ++ ":" ++ isoformat (tzdb := Sample.zones) dt
                                    end) ev))
         (subcomponents cal))).

(** The answers to the dialogue that accept every default. *)
Definition answers : list str :=
  ["  https://demo.index-education.net/pronote/eleve.html ";
   EmptyString; "demonstration"; EmptyString; EmptyString;
   "abc"; "0"; EmptyString; "59"; "60"; "8080"].

(** A lesson like [Sample.math] for another group, ending later. *)
Definition math_group_2 : Lesson :=
  {| start := Holds (Some (make 2024 3 4 8 0 0 0 None));
     end_ := Holds (Some (make 2024 3 4 10 0 0 0 (Some "Europe/Paris")));
     subject := Holds (Some "Math");
     subject_name := Missing;
     classroom := Missing;
     classroom_name := Holds (Some "B12");
     teacher := Holds None;
     teacher_name := Holds (Some "Dupont");
     group_name := Holds (Some "Groupe 2");
     canceled := Holds (Some true) |}.

(** A backend configured with an ENT. *)
Definition with_ent : PronoteBackend :=
  __init__ "https://demo.index-education.net/pronote/eleve.html" "demonstration"
           "secret" " EcoleDirecte " (Some "Europe/Paris") 120.

(** [tz.gettz] on a machine that knows two zones. *)
Definition gettz (name : str) : option tzref :=
  if String.eqb name "Europe/Paris" || String.eqb name "UTC" then Some name else None.

(** A service that refuses the login. *)
Definition refusing : Pronotepy :=
  fun _ _ _ => inr {| logged_in := false; timetable := fun _ _ => inr [] |}.

End Demo.

(* ------------------------------------------------------------------ *)
(** ** The refresh cache: [get_lessons] *)

Module CacheProps.
Import Py Datetime Pronote.
Open Scope Z_scope.

Lemma slot_eq_true (stored : option date) (d : date) :
  slot_eq stored d = true <-> stored = Some d.
Proof.
  destruct stored as [d'|]; simpl.
  - rewrite Z.eqb_eq. split; congruence.
  - split; discriminate.
Qed.

(** The test of [get_lessons] succeeds exactly on a valid cached result. *)
Lemma hit_test (b : PronoteBackend) (now : Z) (sd ed : date) :
  (now <? _cache_until b) && slot_eq (fst (_cache_range b)) sd
    && slot_eq (snd (_cache_range b)) ed = true
  <-> _cache_range b = (Some sd, Some ed) /\ now < _cache_until b.
Proof.
  rewrite !andb_true_iff, Z.ltb_lt, !slot_eq_true.
  destruct (_cache_range b) as [r0 r1]; simpl.
  split.
  - intros [[Hnow H0] H1]. subst. auto.
  - intros [Hr Hnow]. inversion Hr. auto.
Qed.

Lemma miss_test (b : PronoteBackend) (now : Z) (sd ed : date) :
  (now <? _cache_until b) && slot_eq (fst (_cache_range b)) sd
    && slot_eq (snd (_cache_range b)) ed = false
  <-> _cache_range b <> (Some sd, Some ed) \/ _cache_until b <= now.
Proof.
  rewrite <- not_true_iff_false, hit_test.
  split.
  - intros Hn. destruct (Z.lt_ge_cases now (_cache_until b)) as [Hlt|Hge]; [left|right; exact Hge].
    intros Hr. apply Hn. auto.
  - intros [Hr|Hge] [Hr' Hlt]; [contradiction | lia].
Qed.

(** [_login] changes nothing. *)
Lemma login_frame (p : Pronotepy) (w : World) : snd (_login p w) = w.
Proof.
  unfold _login, bind, get_self, lift, raise, ret.
  destruct (truthy (Some (ent_name (self w)))); [reflexivity|].
  destruct (p _ _ _) as [e|client]; [reflexivity|].
  destruct (negb (logged_in client)); reflexivity.
Qed.

(** [_fetch_lessons] leaves the backend alone and is recorded once,
    whatever its outcome. *)
Lemma fetch_lessons_frame (p : Pronotepy) (sd ed : date) (w : World) :
  snd (_fetch_lessons p sd ed w)
  = {| self := self w; upstream_calls := (upstream_calls w ++ [(sd, ed)])%list |}.
Proof.
  unfold _fetch_lessons, bind, record_fetch, lift.
  match goal with |- context [_login p ?w1] =>
    pose proof (login_frame p w1) as Hl; destruct (_login p w1) as [[e|client] w2]
  end; simpl in Hl; subst w2; reflexivity.
Qed.

Lemma get_lessons_on_hit (p : Pronotepy) (now : Z) (sd ed : date) (w : World) :
  _cache_range (self w) = (Some sd, Some ed) ->
  now < _cache_until (self w) ->
  get_lessons p now sd ed w = (inr (_cache_lessons (self w)), w).
Proof.
  intros Hr Hnow. unfold get_lessons, bind, get_self.
  assert (Hc := proj2 (hit_test (self w) now sd ed) (conj Hr Hnow)).
  rewrite Hc. reflexivity.
Qed.

Lemma get_lessons_on_miss (p : Pronotepy) (now : Z) (sd ed : date) (w : World) :
  _cache_range (self w) <> (Some sd, Some ed) \/ _cache_until (self w) <= now ->
  get_lessons p now sd ed w
  = match fst (_fetch_lessons p sd ed w) with
    | inr lessons =>
        (inr lessons,
         {| self := set_cache_until (now + cache_ttl (self w))
                      (set_cache_range (Some sd, Some ed)
                         (set_cache_lessons lessons (self w)));
            upstream_calls := (upstream_calls w ++ [(sd, ed)])%list |})
    | inl e =>
        (inl e, {| self := self w;
                   upstream_calls := (upstream_calls w ++ [(sd, ed)])%list |})
    end.
Proof.
  intros Hmiss. unfold get_lessons, bind at 1, get_self.
  rewrite (proj2 (miss_test (self w) now sd ed) Hmiss).
  unfold bind at 1.
  pose proof (fetch_lessons_frame p sd ed w) as Hf.
  destruct (_fetch_lessons p sd ed w) as [[e|lessons] w1]; simpl in Hf; subst w1; reflexivity.
Qed.

(** What a successful fetch leaves in the cache. *)
Lemma get_lessons_stores (p : Pronotepy) (now : Z) (sd ed : date) (w : World)
      (lessons : list Lesson) :
  _cache_range (self w) <> (Some sd, Some ed) \/ _cache_until (self w) <= now ->
  fst (_fetch_lessons p sd ed w) = inr lessons ->
  let w' := snd (get_lessons p now sd ed w) in
  fst (get_lessons p now sd ed w) = inr lessons
  /\ _cache_range (self w') = (Some sd, Some ed)
  /\ _cache_lessons (self w') = lessons
  /\ _cache_until (self w') = now + cache_ttl (self w)
  /\ cache_ttl (self w') = cache_ttl (self w)
  /\ upstream_calls w' = (upstream_calls w ++ [(sd, ed)])%list.
Proof.
  intros Hmiss Hfetch. rewrite (get_lessons_on_miss p now sd ed w Hmiss), Hfetch.
  simpl. repeat split.
Qed.

(** Every call keeps the configured TTL. *)
Lemma get_lessons_keeps_ttl (p : Pronotepy) (now : Z) (sd ed : date) (w : World) :
  cache_ttl (self (snd (get_lessons p now sd ed w))) = cache_ttl (self w).
Proof.
  destruct (Z.lt_ge_cases now (_cache_until (self w))) as [Hlt|Hge].
  - destruct (_cache_range (self w)) as [[r0|] [r1|]] eqn:Hr;
      try (rewrite get_lessons_on_miss by (left; rewrite Hr; congruence);
           destruct (fst (_fetch_lessons p sd ed w)); reflexivity).
    destruct (Z.eq_dec r0 sd) as [->|Hn0]; [destruct (Z.eq_dec r1 ed) as [->|Hn1]|].
    + rewrite get_lessons_on_hit by assumption. reflexivity.
    + rewrite get_lessons_on_miss by (left; rewrite Hr; congruence).
      destruct (fst (_fetch_lessons p sd ed w)); reflexivity.
    + rewrite get_lessons_on_miss by (left; rewrite Hr; congruence).
      destruct (fst (_fetch_lessons p sd ed w)); reflexivity.
  - rewrite get_lessons_on_miss by (right; exact Hge).
    destruct (fst (_fetch_lessons p sd ed w)); reflexivity.
Qed.

(** Every call is a hit or a miss. *)
Lemma hit_or_miss (b : PronoteBackend) (now : Z) (sd ed : date) :
  (_cache_range b = (Some sd, Some ed) /\ now < _cache_until b)
  \/ (_cache_range b <> (Some sd, Some ed) \/ _cache_until b <= now).
Proof.
  destruct ((now <? _cache_until b) && slot_eq (fst (_cache_range b)) sd
            && slot_eq (snd (_cache_range b)) ed) eqn:Htest.
  - left. apply hit_test. exact Htest.
  - right. apply miss_test. exact Htest.
Qed.

(** In a chronological sequence the expiry never lies further than one TTL
    after the last clock reading. *)
Lemma expiry_within_ttl (calls : list Call) :
  forall (w : World) (t : Z),
    _cache_range (self w) = (None, None) \/ _cache_until (self w) <= t + cache_ttl (self w) ->
    chronological_from t calls ->
    let w' := run calls w in
    cache_ttl (self w') = cache_ttl (self w)
    /\ (_cache_range (self w') = (None, None)
        \/ _cache_until (self w') <= last (map at_time calls) t + cache_ttl (self w)).
Proof.
  induction calls as [|c rest IH]; intros w t Hinv Hchrono.
  - simpl. auto.
  - destruct Hchrono as [Hle Hrest].
    change (run (c :: rest) w) with (run rest (snd (perform c w))).
    assert (Hstep : cache_ttl (self (snd (perform c w))) = cache_ttl (self w)
                    /\ (_cache_range (self (snd (perform c w))) = (None, None)
                        \/ _cache_until (self (snd (perform c w)))
                           <= at_time c + cache_ttl (self w))).
    { unfold perform. split; [apply get_lessons_keeps_ttl|].
      destruct (hit_or_miss (self w) (at_time c) (fst (window c)) (snd (window c)))
        as [[Hr Hnow]|Hmiss].
      - rewrite get_lessons_on_hit by assumption. simpl.
        destruct Hinv as [Hnone|Hbound]; [left; exact Hnone | right; lia].
      - rewrite get_lessons_on_miss by assumption.
        destruct (fst (_fetch_lessons _ _ _ w)); simpl.
        + destruct Hinv as [Hnone|Hbound]; [left; exact Hnone | right; lia].
        + right. lia. }
    destruct Hstep as [Httl Hinv'].
    specialize (IH (snd (perform c w)) (at_time c)).
    rewrite Httl in IH. specialize (IH Hinv' Hrest).
    destruct IH as [Httl' Hbound]. split; [exact Httl'|].
    replace (last (map at_time (c :: rest)) t) with (last (map at_time rest) (at_time c));
      [exact Hbound|].
    simpl. destruct rest; [reflexivity|]. simpl map.
    generalize (at_time c0 :: map at_time rest). intros l.
    clear. revert t. generalize (at_time c).
    induction l as [|x l IHl]; intros; [reflexivity|]. 
    destruct l; [reflexivity|]. simpl in *. apply IHl.
  Qed.

(** C10 - A hit is read-only. When the requested window is the stored one
    and the clock reading is before [_cache_until], the call returns the
    stored lessons and leaves every field of the backend, and the record of
    upstream calls, as they were; the expiry is not pushed back, so a later
    call at or after the old expiry goes to the service even when it comes
    less than one TTL after the hit. *)
Theorem hit_is_read_only (p : Pronotepy) (now : Z) (sd ed : date) (w : World) :
  _cache_range (self w) = (Some sd, Some ed) ->
  now < _cache_until (self w) ->
  let w' := snd (get_lessons p now sd ed w) in
  w' = w
  /\ _cache_range (self w') = _cache_range (self w)
  /\ _cache_lessons (self w') = _cache_lessons (self w)
  /\ _cache_until (self w') = _cache_until (self w)
  /\ (forall (p' : Pronotepy) (later : Z),
        _cache_until (self w) <= later ->
        upstream_calls (snd (get_lessons p' later sd ed w'))
        = (upstream_calls w ++ [(sd, ed)])%list).
Proof.
  intros Hr Hnow w'.
  assert (Hw : w' = w).
  { unfold w'. rewrite get_lessons_on_hit by assumption. reflexivity. }
  rewrite Hw. repeat split.
  intros p' later Hlater.
  rewrite get_lessons_on_miss by (right; exact Hlater).
  destruct (fst (_fetch_lessons p' sd ed w)); reflexivity.
Qed.

(** C3 - A failed fetch is atomic. When a call goes to the service and
    [_fetch_lessons] raises [e], [get_lessons] raises the same [e] and the
    backend is the one it was before the call: window, lessons and expiry
    are untouched; only the record of upstream calls has grown by the
    attempt. *)
Theorem fetch_failure_is_atomic
        (p : Pronotepy) (now : Z) (sd ed : date) (w : World) (e : Exception) :
  _cache_range (self w) <> (Some sd, Some ed) \/ _cache_until (self w) <= now ->
  fst (_fetch_lessons p sd ed w) = inl e ->
  let w' := snd (get_lessons p now sd ed w) in
  fst (get_lessons p now sd ed w) = inl e
  /\ self w' = self w
  /\ _cache_range (self w') = _cache_range (self w)
  /\ _cache_lessons (self w') = _cache_lessons (self w)
  /\ _cache_until (self w') = _cache_until (self w)
  /\ upstream_calls w' = (upstream_calls w ++ [(sd, ed)])%list.
Proof.
  intros Hmiss Hfail. rewrite (get_lessons_on_miss p now sd ed w Hmiss), Hfail.
  simpl. repeat split.
Qed.

(** Whenever [get_lessons] raises, the backend is unchanged and the
    exception is the one [_fetch_lessons] raised. *)
Lemma raise_leaves_backend (p : Pronotepy) (now : Z) (sd ed : date) (w : World)
      (e : Exception) :
  fst (get_lessons p now sd ed w) = inl e ->
  fst (_fetch_lessons p sd ed w) = inl e /\ self (snd (get_lessons p now sd ed w)) = self w.
Proof.
  destruct (hit_or_miss (self w) now sd ed) as [[Hr Hnow]|Hmiss].
  - rewrite get_lessons_on_hit by assumption. discriminate.
  - rewrite get_lessons_on_miss by assumption.
    destruct (fst (_fetch_lessons p sd ed w)) as [e'|lessons]; simpl.
    + auto.
    + discriminate.
Qed.

Lemma expiry_after_last_call (b : PronoteBackend) (calls : list Call) (c : Call) :
  _cache_range b = (None, None) ->
  chronological (calls ++ [c]) ->
  cache_ttl (self (run (calls ++ [c]) (fresh b))) = cache_ttl b
  /\ (_cache_range (self (run (calls ++ [c]) (fresh b))) = (None, None)
      \/ _cache_until (self (run (calls ++ [c]) (fresh b))) <= at_time c + cache_ttl b).
Proof.
  intros Hnew Hchrono.
  assert (Hlast : forall t, last (map at_time (calls ++ [c])) t = at_time c).
  { intros t. rewrite map_app. simpl. apply last_last. }
  remember (calls ++ [c])%list as l eqn:Hl.
  destruct l as [|c0 rest]; [destruct calls; discriminate|].
  pose proof (expiry_within_ttl (c0 :: rest) (fresh b) (at_time c0)
                (or_introl Hnew) (conj (Z.le_refl _) Hchrono)) as Hinv.
  cbv zeta in Hinv. rewrite Hlast in Hinv. exact Hinv.
Qed.

(** C2 - A miss fetches once and replaces the cache. When the requested
    window is not the stored one, or the clock reading is at or past
    [_cache_until], the call goes to the service exactly once; if the fetch
    returns [lessons] the call returns them and the cache holds the
    requested window, [lessons] and the expiry [now + cache_ttl], the rest
    of the backend being kept; a window other than the stored one misses
    whatever the clock says; and in a chronological sequence of calls from
    a new backend, a call later than the last one by the TTL or more
    misses. *)
Theorem miss_fetches_once_and_replaces :
  (forall (p : Pronotepy) (now : Z) (sd ed : date) (w : World),
      _cache_range (self w) <> (Some sd, Some ed) \/ _cache_until (self w) <= now ->
      let w' := snd (get_lessons p now sd ed w) in
      upstream_calls w' = (upstream_calls w ++ [(sd, ed)])%list
      /\ fst (get_lessons p now sd ed w) = fst (_fetch_lessons p sd ed w)
      /\ forall lessons : list Lesson,
          fst (_fetch_lessons p sd ed w) = inr lessons ->
          fst (get_lessons p now sd ed w) = inr lessons
          /\ self w' = {| url := url (self w); user := user (self w); pwd := pwd (self w);
                          ent_name := ent_name (self w); local_tz := local_tz (self w);
                          cache_ttl := cache_ttl (self w);
                          _cache_until := now + cache_ttl (self w);
                          _cache_range := (Some sd, Some ed);
                          _cache_lessons := lessons |})
  /\ (forall (p : Pronotepy) (now : Z) (sd ed : date) (w : World),
        _cache_range (self w) <> (Some sd, Some ed) ->
        upstream_calls (snd (get_lessons p now sd ed w))
        = (upstream_calls w ++ [(sd, ed)])%list)
  /\ (forall (url user pwd ent : str) (tz : option tzref) (ttl : Z)
             (calls : list Call) (c : Call) (p : Pronotepy) (eps : Z) (sd ed : date),
        chronological (calls ++ [c]) ->
        0 <= eps ->
        let w := run (calls ++ [c]) (fresh (__init__ url user pwd ent tz ttl)) in
        upstream_calls (snd (get_lessons p (at_time c + ttl + eps) sd ed w))
        = (upstream_calls w ++ [(sd, ed)])%list).
Proof.
  split; [|split].
  - intros p now sd ed w Hmiss w'. unfold w'.
    rewrite (get_lessons_on_miss p now sd ed w Hmiss).
    destruct (fst (_fetch_lessons p sd ed w)) as [e|fetched]; simpl.
    + split; [reflexivity|]. split; [reflexivity|].
      intros lessons Hl. discriminate Hl.
    + split; [reflexivity|]. split; [reflexivity|].
      intros lessons Hl. injection Hl as <-. split; reflexivity.
  - intros p now sd ed w Hr.
    rewrite get_lessons_on_miss by (left; exact Hr).
    destruct (fst (_fetch_lessons p sd ed w)); reflexivity.
  - intros url user pwd ent tz ttl calls c p eps sd ed Hchrono Heps w.
    destruct (expiry_after_last_call (__init__ url user pwd ent tz ttl) calls c
                eq_refl Hchrono) as [Httl Hbound].
    fold w in Httl, Hbound. simpl in Httl.
    rewrite get_lessons_on_miss.
    + destruct (fst (_fetch_lessons p sd ed w)); reflexivity.
    + destruct Hbound as [Hnone|Hle]; [left; rewrite Hnone; discriminate | right].
      simpl in Hle. lia.
Qed.

(** Calls for the stored window before its expiry change nothing. *)
Lemma run_of_hits (mids : list Call) (sd ed : date) (bound : Z) (w : World) :
  _cache_range (self w) = (Some sd, Some ed) ->
  bound < _cache_until (self w) ->
  Forall (fun c => window c = (sd, ed) /\ at_time c <= bound) mids ->
  run mids w = w.
Proof.
  intros Hr Hbound Hmids. induction Hmids as [|c rest [Hwin Htime] _ IH].
  - reflexivity.
  - change (run (c :: rest) w) with (run rest (snd (perform c w))).
    unfold perform. rewrite Hwin. simpl fst. simpl snd.
    rewrite get_lessons_on_hit by (assumption || lia). exact IH.
Qed.

(** C1 - Hit after a fetch (the statement that holds). When a call for a
    window at [t1] goes to the service and its fetch returns [lessons],
    then after any calls for the same window at clock readings up to [t2],
    a call for that window at [t2], with [t1 < t2 < t1 + cache_ttl],
    returns exactly [lessons], leaves the world as the first call left it
    and adds nothing to the record of upstream calls, whatever the service
    would answer by then. *)
Theorem hit_after_fetch
        (p1 p2 : Pronotepy) (t1 t2 : Z) (sd ed : date) (w : World)
        (lessons : list Lesson) (mids : list Call) :
  _cache_range (self w) <> (Some sd, Some ed) \/ _cache_until (self w) <= t1 ->
  fst (get_lessons p1 t1 sd ed w) = inr lessons ->
  t1 < t2 < t1 + cache_ttl (self w) ->
  Forall (fun c => window c = (sd, ed) /\ at_time c <= t2) mids ->
  let w1 := snd (get_lessons p1 t1 sd ed w) in
  let w2 := run mids w1 in
  get_lessons p2 t2 sd ed w2 = (inr lessons, w1)
  /\ _cache_lessons (self w1) = lessons
  /\ upstream_calls (snd (get_lessons p2 t2 sd ed w2)) = upstream_calls w1.
Proof.
  intros Hmiss Hok Ht Hmids w1 w2.
  assert (Hfetch : fst (_fetch_lessons p1 sd ed w) = inr lessons).
  { rewrite (get_lessons_on_miss p1 t1 sd ed w Hmiss) in Hok.
    destruct (fst (_fetch_lessons p1 sd ed w)); [discriminate | exact Hok]. }
  destruct (get_lessons_stores p1 t1 sd ed w lessons Hmiss Hfetch)
    as (_ & Hr & Hl & Hu & _ & _).
  fold w1 in Hr, Hl, Hu.
  assert (Hw2 : w2 = w1).
  { unfold w2. apply (run_of_hits mids sd ed t2); [exact Hr | lia | exact Hmids]. }
  rewrite Hw2, get_lessons_on_hit by (assumption || lia).
  rewrite Hl. repeat split.
Qed.

(** The expiry is the creation time plus the TTL along every sequence of
    calls. *)
Lemma creation_invariant (calls : list Call) :
  forall (w : World) (created : option Z),
    match created with
    | Some t => _cache_range (self w) <> (None, None)
                /\ _cache_until (self w) = t + cache_ttl (self w)
    | None => _cache_range (self w) = (None, None)
    end ->
    cache_ttl (self (run calls w)) = cache_ttl (self w)
    /\ match creation_time calls w created with
       | Some t => _cache_range (self (run calls w)) <> (None, None)
                   /\ _cache_until (self (run calls w)) = t + cache_ttl (self w)
       | None => _cache_range (self (run calls w)) = (None, None)
       end.
Proof.
  induction calls as [|c rest IH]; intros w created Hinv.
  - simpl. auto.
  - change (run (c :: rest) w) with (run rest (snd (perform c w))).
    simpl creation_time.
    destruct (perform c w) as [r w'] eqn:Hperf. simpl snd.
    assert (Httl : cache_ttl (self w') = cache_ttl (self w)).
    { replace w' with (snd (perform c w)) by (rewrite Hperf; reflexivity).
      apply get_lessons_keeps_ttl. }
    specialize (IH w' (if stored w r w' then Some (at_time c) else created)).
    rewrite Httl in IH. apply IH. clear IH.
    unfold perform in Hperf.
    destruct (hit_or_miss (self w) (at_time c) (fst (window c)) (snd (window c)))
      as [[Hr Hnow]|Hmiss].
    + rewrite get_lessons_on_hit in Hperf by assumption.
      injection Hperf as <- <-. simpl. rewrite Nat.eqb_refl. simpl. exact Hinv.
    + rewrite get_lessons_on_miss in Hperf by assumption.
      destruct (fst (_fetch_lessons _ _ _ w)) as [e|lessons];
        injection Hperf as <- <-; simpl.
      * exact Hinv.
      * rewrite length_app. simpl.
        replace (Nat.eqb _ _) with false
          by (symmetry; apply Nat.eqb_neq; lia).
        simpl. split; [discriminate | reflexivity].
Qed.

(** C8 - The expiry invariant. After any sequence of calls on a new
    backend, either no call has stored a result and the cache holds no
    window, or the cache holds a window and [_cache_until] is at least (in
    fact exactly) the clock reading of the call that stored the result plus
    the configured TTL. *)
Theorem expiry_invariant
        (url user pwd ent : str) (tz : option tzref) (ttl : Z) (calls : list Call) :
  let w0 := fresh (__init__ url user pwd ent tz ttl) in
  match creation_time calls w0 None with
  | Some created =>
      _cache_range (self (run calls w0)) <> (None, None)
      /\ created + ttl <= _cache_until (self (run calls w0))
      /\ _cache_until (self (run calls w0)) = created + ttl
  | None => _cache_range (self (run calls w0)) = (None, None)
  end.
Proof.
  intros w0.
  destruct (creation_invariant calls w0 None eq_refl) as [_ Hinv].
  destruct (creation_time calls w0 None) as [created|] eqn:Hc.
  - destruct Hinv as [Hr Hu]. simpl in Hu. repeat split; [exact Hr | lia | exact Hu].
  - exact Hinv.
Qed.

(** *** The properties at concrete requests

    A backend with a TTL of 120 is asked on 2024-03-04 for eight weeks;
    clock readings are seconds since the epoch. *)

(** C1 as first stated fails: the call at 1709539300 succeeds (it is a hit
    on what the call at 1709539200 stored), the call at 1709539350 comes
    less than one TTL later for the same window with nothing in between,
    and yet it goes to the service and returns what the service answers
    then, not the stored lessons. *)
Lemma hit_after_any_success_fails :
  let W := Sample.window_of 8 in
  let w0 := run [Sample.call 1709539200 8 (Sample.serving [Sample.math])]
                (fresh Sample.backend) in
  let first := get_lessons (Sample.serving [Sample.math]) 1709539300 (fst W) (snd W) w0 in
  let second := get_lessons (Sample.serving []) 1709539350 (fst W) (snd W) (snd first) in
  1709539300 < 1709539350 < 1709539300 + cache_ttl Sample.backend
  /\ fst first = inr [Sample.math]
  /\ _cache_lessons (self (snd first)) = [Sample.math]
  /\ fst second = inr []
  /\ fst second <> inr (_cache_lessons (self (snd first)))
  /\ upstream_calls (snd second) = (upstream_calls (snd first) ++ [W])%list.
Proof.
  vm_compute. repeat split; discriminate.
Qed.

Lemma hit_after_fetch_witness :
  let W := Sample.window_of 8 in
  let w := fresh Sample.backend in
  let w1 := snd (get_lessons (Sample.serving [Sample.math]) 1709539200 (fst W) (snd W) w) in
  let w2 := run [Sample.call 1709539250 8 Sample.failing] w1 in
  get_lessons (Sample.serving []) 1709539300 (fst W) (snd W) w2 = (inr [Sample.math], w1)
  /\ _cache_lessons (self w1) = [Sample.math]
  /\ upstream_calls (snd (get_lessons (Sample.serving []) 1709539300 (fst W) (snd W) w2))
     = upstream_calls w1.
Proof.
  apply (hit_after_fetch (Sample.serving [Sample.math]) (Sample.serving [])
           1709539200 1709539300 (fst (Sample.window_of 8)) (snd (Sample.window_of 8))
           (fresh Sample.backend) [Sample.math]
           [Sample.call 1709539250 8 Sample.failing]).
  - left. discriminate.
  - reflexivity.
  - simpl. lia.
  - constructor; [split; [reflexivity | simpl; lia] | constructor].
Defined.

Lemma miss_fetches_once_and_replaces_witness :
  let W := Sample.window_of 8 in
  let w := run [Sample.call 1709539200 8 (Sample.serving [])] (fresh Sample.backend) in
  (* the stored window is asked again once the TTL has run out *)
  (let w' := snd (get_lessons (Sample.serving [Sample.math]) 1709539320 (fst W) (snd W) w) in
   upstream_calls w' = [W; W]
   /\ _cache_lessons (self w') = [Sample.math]
   /\ _cache_until (self w') = 1709539440)
  (* another window is asked before the TTL has run out *)
  /\ upstream_calls
       (snd (get_lessons (Sample.serving []) 1709539201
               (fst (Sample.window_of 12)) (snd (Sample.window_of 12)) w))
     = [W; Sample.window_of 12].
Proof.
  destruct miss_fetches_once_and_replaces as (Hmiss & Hwindow & Hexpiry).
  intros W w. split.
  - pose proof (Hexpiry (url Sample.backend) (user Sample.backend) (pwd Sample.backend)
                  EmptyString (local_tz Sample.backend) 120
                  [] (Sample.call 1709539200 8 (Sample.serving []))
                  (Sample.serving [Sample.math]) 0 (fst W) (snd W) I (Z.le_refl 0))
      as Hcalls.
    destruct (Hmiss (Sample.serving [Sample.math]) 1709539320 (fst W) (snd W) w
                (or_intror (Z.le_refl 1709539320)))
      as (_ & _ & Hstore).
    destruct (Hstore [Sample.math] eq_refl) as [_ Hself].
    split; [exact Hcalls | rewrite Hself; split; reflexivity].
  - apply (Hwindow (Sample.serving []) 1709539201
             (fst (Sample.window_of 12)) (snd (Sample.window_of 12)) w).
    discriminate.
Defined.

Lemma fetch_failure_is_atomic_witness :
  let W := Sample.window_of 8 in
  let w := run [Sample.call 1709539200 8 (Sample.serving [Sample.math])]
               (fresh Sample.backend) in
  let w' := snd (get_lessons Sample.failing 1709539320 (fst W) (snd W) w) in
  (_cache_range (self w) <> (Some (fst W), Some (snd W)) \/ _cache_until (self w) <= 1709539320)
  /\ fst (_fetch_lessons Sample.failing (fst W) (snd W) w)
     = inl (LibraryError "timetable unavailable")
  /\ fst (get_lessons Sample.failing 1709539320 (fst W) (snd W) w)
     = inl (LibraryError "timetable unavailable")
  /\ self w' = self w
  /\ _cache_lessons (self w') = [Sample.math]
  /\ _cache_until (self w') = 1709539320.
Proof.
  intros W w w'.
  assert (Hmiss : _cache_range (self w) <> (Some (fst W), Some (snd W))
                  \/ _cache_until (self w) <= 1709539320)
    by (right; apply Z.le_refl).
  assert (Hfail : fst (_fetch_lessons Sample.failing (fst W) (snd W) w)
                  = inl (LibraryError "timetable unavailable"))
    by reflexivity.
  destruct (fetch_failure_is_atomic Sample.failing 1709539320 (fst W) (snd W) w
              (LibraryError "timetable unavailable") Hmiss Hfail)
    as (Hraise & Hself & _ & Hlessons & Huntil & _).
  split; [exact Hmiss|]. split; [exact Hfail|]. split; [exact Hraise|].
  split; [exact Hself|]. split; [exact Hlessons | exact Huntil].
Defined.

Lemma hit_is_read_only_witness :
  let W := Sample.window_of 8 in
  let w := run [Sample.call 1709539200 8 (Sample.serving [Sample.math])]
               (fresh Sample.backend) in
  _cache_range (self w) = (Some (fst W), Some (snd W))
  /\ 1709539319 < _cache_until (self w)
  /\ snd (get_lessons Sample.failing 1709539319 (fst W) (snd W) w) = w.
Proof.
  intros W w.
  assert (Hr : _cache_range (self w) = (Some (fst W), Some (snd W))) by reflexivity.
  assert (Hnow : 1709539319 < _cache_until (self w)) by reflexivity.
  split; [exact Hr|]. split; [exact Hnow|].
  apply (hit_is_read_only Sample.failing 1709539319 (fst W) (snd W) w Hr Hnow).
Defined.

(** The invariant of C8 at a sequence whose second call stores nothing and
    whose third call stores again. *)
Lemma expiry_invariant_sample :
  let calls := [Sample.call 1709539200 8 (Sample.serving []);
                Sample.call 1709539260 8 Sample.failing;
                Sample.call 1709539330 8 (Sample.serving [Sample.math])] in
  creation_time calls (fresh Sample.backend) None = Some 1709539330
  /\ _cache_until (self (run calls (fresh Sample.backend))) = 1709539450.
Proof. split; reflexivity. Qed.

End CacheProps.

(* ------------------------------------------------------------------ *)
(** ** Normalisation, identity and the events of the calendar *)

Module FeedProps.
Import Py Datetime Pronote Feed.
Open Scope string_scope.
Open Scope Z_scope.

Lemma truthy_false_iff (s : str) : truthy (Some s) = false <-> s = EmptyString.
Proof.
  simpl. rewrite negb_false_iff. apply String.eqb_eq.
Qed.

Lemma or_else_gives (a : attr str) (default : option str) (s d : str) :
  gives a s -> or_else (getattr a default) d = s.
Proof.
  intros [-> Hs]. simpl.
  destruct (String.eqb s EmptyString) eqn:He; [|reflexivity].
  apply String.eqb_eq in He. contradiction.
Qed.

Lemma or_else_blank (a : attr str) (default : option str) (d : str) :
  blank a -> default = None \/ default = Some EmptyString ->
  or_else (getattr a default) d = d.
Proof.
  intros [-> | [-> | ->]] [-> | ->]; reflexivity.
Qed.

(** Every attribute either gives no text or gives one. *)
Lemma blank_or_gives (a : attr str) : blank a \/ exists s, gives a s.
Proof.
  destruct a as [|[s|]]; [left; left; reflexivity | | left; right; left; reflexivity].
  destruct (string_dec s EmptyString) as [->|Hs].
  - left. right. right. reflexivity.
  - right. exists s. split; [reflexivity | exact Hs].
Qed.

Section WithZones.
Context {tzdb : TzDatabase} {machine : Machine}.
Variable me : PronoteBackend.

(** [astimezone] in one expression: the zone it goes to, the test for the
    same zone object, and the two readings that must fit. *)
Lemma astimezone_eq (dt : datetime) (mytz : tzref) (tz : option tzref) :
  astimezone dt mytz tz
  = let utc := wall dt - utcoffset (zone mytz) (wall dt) (fold dt) in
    let target := match tz with
                  | Some t => t
                  | None => local_timezone (posix utc)
                  end in
    if match tz with
       | Some t => String.eqb t mytz
       | None => false
       end
    then Some dt
    else if representable utc && representable (fst (fromutc (zone target) utc))
         then Some {| wall := fst (fromutc (zone target) utc);
                      fold := snd (fromutc (zone target) utc);
                      tzinfo := Some target |}
         else None.
Proof.
  unfold astimezone. cbv zeta.
  destruct tz as [t|].
  - destruct (String.eqb t mytz); [reflexivity|].
    destruct (representable _); [|reflexivity].
    destruct (fromutc (zone t) _) as [w f]. cbn [fst snd andb].
    destruct (representable w); reflexivity.
  - destruct (representable _); [|reflexivity].
    destruct (fromutc _ _) as [w f]. cbn [fst snd andb].
    destruct (representable w); reflexivity.
Qed.

(** The only exception of [_to_local] is the [OverflowError] of
    [astimezone], on a time that carries a zone. *)
Lemma to_local_raises (dt : option datetime) (e : Exception) :
  _to_local me dt = inl e ->
  e = OverflowError "date value out of range"
  /\ exists (d : datetime) (mytz : tzref),
      dt = Some d /\ tzinfo d = Some mytz /\ astimezone d mytz (local_tz me) = None.
Proof.
  destruct dt as [d|]; cbn; [|discriminate].
  destruct (tzinfo d) as [mytz|] eqn:Htz; [|discriminate].
  destruct (astimezone d mytz (local_tz me)) eqn:Hconv; [discriminate|].
  intros H. injection H as <-. split; [reflexivity|].
  exists d, mytz. auto.
Qed.


(** The event of a lesson, property by property. *)
Lemma event_for_properties (lesson : Lesson) (s e : datetime) :
  property "summary" (event_for lesson s e)
  = Some (Text (if truthy (Some (group_of lesson))
                then title_of lesson ++ " (" ++ group_of lesson ++ ")"
                else title_of lesson))
  /\ property "location" (event_for lesson s e)
     = (if truthy (Some (room_of lesson)) then Some (Text (room_of lesson)) else None)
  /\ property "uid" (event_for lesson s e)
     = Some (Text (_uid_for s (title_of lesson) (room_of lesson) (teacher_of lesson)))
  /\ property "dtstart" (event_for lesson s e) = Some (Time s)
  /\ property "dtend" (event_for lesson s e) = Some (Time e)
  /\ property "status" (event_for lesson s e)
     = Some (Text (if canceled_of lesson then "CANCELLED" else "CONFIRMED")).
Proof.
  unfold event_for.
  destruct (truthy (Some (group_of lesson))), (truthy (Some (room_of lesson)));
    simpl; repeat split; reflexivity.
Qed.

(** The event of a lesson whose times resolve. *)
Lemma event_of_resolved (lesson : Lesson) (s e : datetime) :
  _to_local me (getattr (start lesson) None) = inr (Some s) ->
  _to_local me (getattr (end_ lesson) None) = inr (Some e) ->
  event_of me lesson = inr (Some (event_for lesson s e)).
Proof.
  intros Hs He. unfold event_of. rewrite Hs, He. reflexivity.
Qed.

(** What an event was made of. *)
Lemma event_of_inv (lesson : Lesson) (ev : Event) :
  event_of me lesson = inr (Some ev) ->
  exists s e : datetime,
    _to_local me (getattr (start lesson) None) = inr (Some s)
    /\ _to_local me (getattr (end_ lesson) None) = inr (Some e)
    /\ ev = event_for lesson s e.
Proof.
  unfold event_of.
  destruct (_to_local me (getattr (start lesson) None)) as [x|[s|]]; [discriminate| |];
    (destruct (_to_local me (getattr (end_ lesson) None)) as [y|[e|]]; try discriminate).
  intros H. injection H as <-. exists s, e. auto.
Qed.

(** The three ways a turn of the loop ends. *)
Lemma event_of_cases (lesson : Lesson) :
  match event_of me lesson with
  | inl e => normalisable me lesson = false /\ resolvable me lesson = false
             /\ e = OverflowError "date value out of range"
  | inr None => normalisable me lesson = true /\ resolvable me lesson = false
  | inr (Some _) => normalisable me lesson = true /\ resolvable me lesson = true
  end.
Proof.
  unfold event_of, normalisable, resolvable.
  destruct (_to_local me (getattr (start lesson) None)) as [x|[s|]] eqn:Hs.
  - apply to_local_raises in Hs. destruct Hs as [-> _].
    destruct (_to_local me (getattr (end_ lesson) None)); auto.
  - destruct (_to_local me (getattr (end_ lesson) None)) as [y|[e|]] eqn:He; auto.
    apply to_local_raises in He. destruct He as [-> _]. auto.
  - destruct (_to_local me (getattr (end_ lesson) None)) as [y|[e|]] eqn:He; auto.
    apply to_local_raises in He. destruct He as [-> _]. auto.
Qed.


Lemma event_of_resolvable (lesson : Lesson) :
  resolvable me lesson = true -> exists ev, event_of me lesson = inr (Some ev).
Proof.
  intros Hr. pose proof (event_of_cases lesson) as Hc.
  destruct (event_of me lesson) as [e|[ev|]].
  - destruct Hc as (_ & Hc & _). congruence.
  - exists ev. reflexivity.
  - destruct Hc as [_ Hc]. congruence.
Qed.


(** C5 - Cancellation keeps the identity. For a lesson whose start and
    end resolve, the lesson with [canceled] set and the lesson with
    [canceled] cleared each give a calendar of one event; the first has the
    status CANCELLED, the second CONFIRMED, and both carry the same
    identifier, the one computed from the normalised start, the title, the
    room and the teacher. *)
Theorem cancellation_keeps_identity (lesson : Lesson) :
  resolvable me lesson = true ->
  exists (cal1 cal2 : Calendar) (cancelled confirmed : Event) (s : datetime),
    lessons_to_ics me [with_canceled true lesson] = inr cal1
    /\ subcomponents cal1 = [cancelled]
    /\ lessons_to_ics me [with_canceled false lesson] = inr cal2
    /\ subcomponents cal2 = [confirmed]
    /\ property "status" cancelled = Some (Text "CANCELLED")
    /\ property "status" confirmed = Some (Text "CONFIRMED")
    /\ property "uid" cancelled = property "uid" confirmed
    /\ _to_local me (getattr (start lesson) None) = inr (Some s)
    /\ property "uid" confirmed
       = Some (Text (_uid_for s (title_of lesson) (room_of lesson) (teacher_of lesson))).
Proof.
  unfold resolvable.
  destruct (_to_local me (getattr (start lesson) None)) as [x|[s|]] eqn:Hs; try discriminate.
  destruct (_to_local me (getattr (end_ lesson) None)) as [y|[e|]] eqn:He; try discriminate.
  intros _.
  pose proof (event_of_resolved (with_canceled true lesson) s e Hs He) as Hev1.
  pose proof (event_of_resolved (with_canceled false lesson) s e Hs He) as Hev2.
  destruct (event_for_properties (with_canceled true lesson) s e)
    as (_ & _ & Huid1 & _ & _ & Hst1).
  destruct (event_for_properties (with_canceled false lesson) s e)
    as (_ & _ & Huid2 & _ & _ & Hst2).
  unfold lessons_to_ics. cbn [for_lessons]. rewrite Hev1, Hev2.
  eexists. eexists.
  exists (event_for (with_canceled true lesson) s e),
         (event_for (with_canceled false lesson) s e), s.
  split; [reflexivity|]. split; [reflexivity|].
  split; [reflexivity|]. split; [reflexivity|].
  split; [exact Hst1|]. split; [exact Hst2|].
  split; [rewrite Huid1, Huid2; reflexivity|].
  split; [reflexivity | exact Huid2].
Qed.

(** The loop of [lessons_to_ics], from any calendar built so far: it ends
    with the events of the lessons whose both times resolve, or with the
    [OverflowError] of a lesson one of whose times cannot be normalised. *)
Lemma loop_appends (lessons : list Lesson) :
  forall cal : Calendar,
    match for_lessons me cal lessons with
    | inr cal' =>
        properties cal' = properties cal
        /\ Forall (fun lesson => normalisable me lesson = true) lessons
        /\ map (fun ev => inr (Some ev)) (subcomponents cal')
           = (map (fun ev => inr (Some ev)) (subcomponents cal)
              ++ map (event_of me) (filter (resolvable me) lessons))%list
    | inl e =>
        e = OverflowError "date value out of range"
        /\ Exists (fun lesson => normalisable me lesson = false) lessons
    end.
Proof.
  induction lessons as [|lesson rest IH]; intros cal.
  - cbn. rewrite app_nil_r. auto.
  - cbn [for_lessons filter].
    pose proof (event_of_cases lesson) as Hc.
    destruct (event_of me lesson) as [e|[ev|]] eqn:Hev.
    + destruct Hc as (Hn & _ & ->). split; [reflexivity|]. left. exact Hn.
    + destruct Hc as [Hn Hr]. rewrite Hr.
      specialize (IH (add_component cal ev)).
      destruct (for_lessons me (add_component cal ev) rest) as [e|cal'].
      * destruct IH as [-> Hex]. split; [reflexivity|]. right. exact Hex.
      * destruct IH as (Hp & Hall & Hs). split; [exact Hp|]. split.
        -- constructor; assumption.
        -- rewrite Hs. cbn [add_component subcomponents map].
           rewrite map_app, <- app_assoc, Hev. reflexivity.
    + destruct Hc as [Hn Hr]. rewrite Hr.
      specialize (IH cal).
      destruct (for_lessons me cal rest) as [e|cal'].
      * destruct IH as [-> Hex]. split; [reflexivity|]. right. exact Hex.
      * destruct IH as (Hp & Hall & Hs). split; [exact Hp|]. split; [|exact Hs].
        constructor; assumption.
Qed.

(** The loop runs to its end when no lesson makes [_to_local] raise. *)
Lemma loop_ends (lessons : list Lesson) :
  forall cal : Calendar,
    Forall (fun lesson => normalisable me lesson = true) lessons ->
    exists cal' : Calendar, for_lessons me cal lessons = inr cal'.
Proof.
  intros cal Hall. pose proof (loop_appends lessons cal) as Hloop.
  destruct (for_lessons me cal lessons) as [e|cal']; [|exists cal'; reflexivity].
  destruct Hloop as [_ Hex]. apply Exists_exists in Hex.
  destruct Hex as (lesson & Hin & Hn).
  rewrite Forall_forall in Hall. rewrite (Hall lesson Hin) in Hn. discriminate.
Qed.


(** C9 - The display fields (the statement that holds). The title is the
    text of [subject] when it gives one, else the text of [subject_name]
    when it gives one, else [Cours]; the room and the teacher follow the
    same chain over their two attributes and end at the empty string;
    the summary of the event is the title when [group_name] gives no
    text and the title followed by the group in brackets when it does. *)
Theorem display_fields_fall_back (lesson : Lesson) :
  (forall s, gives (subject lesson) s -> title_of lesson = s)
  /\ (forall s, blank (subject lesson) -> gives (subject_name lesson) s ->
                title_of lesson = s)
  /\ (blank (subject lesson) -> blank (subject_name lesson) -> title_of lesson = "Cours")
  /\ (forall s, gives (classroom lesson) s -> room_of lesson = s)
  /\ (forall s, blank (classroom lesson) -> gives (classroom_name lesson) s ->
                room_of lesson = s)
  /\ (blank (classroom lesson) -> blank (classroom_name lesson) ->
      room_of lesson = EmptyString)
  /\ (forall s, gives (teacher lesson) s -> teacher_of lesson = s)
  /\ (forall s, blank (teacher lesson) -> gives (teacher_name lesson) s ->
                teacher_of lesson = s)
  /\ (blank (teacher lesson) -> blank (teacher_name lesson) ->
      teacher_of lesson = EmptyString)
  /\ (forall ev : Event,
        event_of me lesson = inr (Some ev) ->
        (blank (group_name lesson) ->
         property "summary" ev = Some (Text (title_of lesson)))
        /\ (forall g, gives (group_name lesson) g ->
                      property "summary" ev
                      = Some (Text (title_of lesson ++ " (" ++ g ++ ")")))).
Proof.
  unfold title_of, room_of, teacher_of.
  repeat match goal with |- _ /\ _ => split end.
  - intros s Hs. apply or_else_gives. exact Hs.
  - intros s Hb Hs. rewrite (or_else_blank _ _ _ Hb) by auto.
    apply or_else_gives. exact Hs.
  - intros Hb Hb'. rewrite (or_else_blank _ _ _ Hb) by auto.
    apply or_else_blank; auto.
  - intros s Hs. apply or_else_gives. exact Hs.
  - intros s Hb Hs. rewrite (or_else_blank _ _ _ Hb) by auto.
    apply or_else_gives. exact Hs.
  - intros Hb Hb'. rewrite (or_else_blank _ _ _ Hb) by auto.
    apply or_else_blank; auto.
  - intros s Hs. apply or_else_gives. exact Hs.
  - intros s Hb Hs. rewrite (or_else_blank _ _ _ Hb) by auto.
    apply or_else_gives. exact Hs.
  - intros Hb Hb'. rewrite (or_else_blank _ _ _ Hb) by auto.
    apply or_else_blank; auto.
  - intros ev Hev.
    apply event_of_inv in Hev. destruct Hev as (s & e & _ & _ & ->).
    destruct (event_for_properties lesson s e) as (Hsum & _).
    fold (title_of lesson). rewrite Hsum. unfold group_of. split.
    + intros Hb. rewrite (or_else_blank _ _ _ Hb) by auto. reflexivity.
    + intros g Hg. rewrite (or_else_gives _ (Some EmptyString) _ EmptyString Hg).
      destruct Hg as [_ Hg].
      destruct (truthy (Some g)) eqn:Ht; [reflexivity|].
      apply truthy_false_iff in Ht. contradiction.
Qed.

End WithZones.

Lemma hexdigest_length (msg : list Z) : String.length (Sha1.hexdigest msg) = 40%nat.
Proof. reflexivity. Qed.

(** C4 - The event identifier. [_uid_for] is the SHA-1 digest, in forty
    hexadecimal characters, of the UTF-8 bytes of the ISO 8601 text of the
    start, the title, the room and the teacher joined by vertical bars,
    followed by [@pronote-ics]; it depends on the start only through that
    text; and for 2024-03-04T08:00:00+01:00, Math, B12, Dupont it is the
    digest of that very line followed by the suffix. *)
Theorem uid_is_sha1_of_the_fields :
  (forall (tzdb : TzDatabase) (start_dt : datetime) (title room teacher : str),
      _uid_for start_dt title room teacher
      = Sha1.hexdigest
          (encode_utf8 (isoformat start_dt ++ "|" ++ title ++ "|" ++ room ++ "|" ++ teacher))
        ++ "@pronote-ics"
      /\ String.length (_uid_for start_dt title room teacher) = 52%nat
      /\ substring 40 12 (_uid_for start_dt title room teacher) = "@pronote-ics")
  /\ (forall (tzdb : TzDatabase) (s1 s2 : datetime) (title room teacher : str),
        isoformat s1 = isoformat s2 ->
        _uid_for s1 title room teacher = _uid_for s2 title room teacher)
  /\ @isoformat Sample.zones Sample.monday_8 = "2024-03-04T08:00:00+01:00"
  /\ @_uid_for Sample.zones Sample.monday_8 "Math" "B12" "Dupont"
     = Sha1.hexdigest (encode_utf8 "2024-03-04T08:00:00+01:00|Math|B12|Dupont")
       ++ "@pronote-ics"
  /\ @_uid_for Sample.zones Sample.monday_8 "Math" "B12" "Dupont"
     = "0371b769ef9c1741acfd1b226d4148f633186a1c@pronote-ics".
Proof.
  split; [|split; [|split; [|split]]].
  - intros tzdb start_dt title room teacher. unfold _uid_for.
    split; [reflexivity|].
    split; reflexivity.
  - intros tzdb s1 s2 title room teacher Hiso. unfold _uid_for. rewrite Hiso. reflexivity.
  - vm_compute. reflexivity.
  - vm_compute. reflexivity.
  - vm_compute. reflexivity.
Qed.

(** *** The properties at concrete lessons *)

Lemma uid_is_sha1_of_the_fields_witness :
  let again := {| wall := wall Sample.monday_8; fold := true;
                  tzinfo := tzinfo Sample.monday_8 |} in
  @isoformat Sample.zones Sample.monday_8 = @isoformat Sample.zones again
  /\ @_uid_for Sample.zones Sample.monday_8 "Math" "B12" "Dupont"
     = @_uid_for Sample.zones again "Math" "B12" "Dupont".
Proof.
  intros again.
  assert (Hiso : @isoformat Sample.zones Sample.monday_8 = @isoformat Sample.zones again)
    by reflexivity.
  split; [exact Hiso|].
  destruct uid_is_sha1_of_the_fields as (_ & Hsame & _).
  apply (Hsame Sample.zones Sample.monday_8 again "Math" "B12" "Dupont" Hiso).
Defined.

Lemma cancellation_keeps_identity_witness :
  resolvable (tzdb := Sample.zones) (machine := Sample.utc_machine)
    Sample.backend Sample.math = true
  /\ exists (cal1 cal2 : Calendar) (cancelled confirmed : Event) (s : datetime),
      lessons_to_ics (tzdb := Sample.zones) (machine := Sample.utc_machine) Sample.backend
        [with_canceled true Sample.math] = inr cal1
      /\ subcomponents cal1 = [cancelled]
      /\ lessons_to_ics (tzdb := Sample.zones) (machine := Sample.utc_machine) Sample.backend
           [with_canceled false Sample.math] = inr cal2
      /\ subcomponents cal2 = [confirmed]
      /\ property "status" cancelled = Some (Text "CANCELLED")
      /\ property "status" confirmed = Some (Text "CONFIRMED")
      /\ property "uid" cancelled = property "uid" confirmed
      /\ _to_local (tzdb := Sample.zones) (machine := Sample.utc_machine) Sample.backend
           (getattr (start Sample.math) None) = inr (Some s)
      /\ property "uid" confirmed
         = Some (Text (_uid_for (tzdb := Sample.zones) s (title_of Sample.math)
                         (room_of Sample.math) (teacher_of Sample.math))).
Proof.
  split; [reflexivity|].
  apply (cancellation_keeps_identity (tzdb := Sample.zones) (machine := Sample.utc_machine)
           Sample.backend Sample.math).
  reflexivity.
Defined.




(** In April, two hours ahead: 08:00 without a zone is 08:00+02:00, which is
    06:00 in UTC, and 08:00 in UTC is 10:00+02:00. *)
Lemma to_local_in_summer_time :
  _to_local (tzdb := Sample.zones) (machine := Sample.utc_machine) Sample.backend
    (Some (make 2024 4 2 8 0 0 0 None))
  = inr (Some (make 2024 4 2 8 0 0 0 (Some "Europe/Paris")))
  /\ isoformat (tzdb := Sample.zones) (make 2024 4 2 8 0 0 0 (Some "Europe/Paris"))
     = "2024-04-02T08:00:00+02:00"
  /\ _to_local (tzdb := Sample.zones) (machine := Sample.utc_machine) Sample.backend
       (Some (make 2024 4 2 8 0 0 0 (Some "UTC")))
     = inr (Some (make 2024 4 2 10 0 0 0 (Some "Europe/Paris"))).
Proof. repeat split; vm_compute; reflexivity. Qed.



(** C9 as first stated fails: a lesson whose two subject attributes give
    no text is titled [Cours], not [Lesson], and so is its event. *)
Lemma default_title_is_not_Lesson :
  blank (subject Sample.anonymous)
  /\ blank (subject_name Sample.anonymous)
  /\ title_of Sample.anonymous = "Cours"
  /\ title_of Sample.anonymous <> "Lesson"
  /\ exists (cal : Calendar) (ev : Event),
      lessons_to_ics (tzdb := Sample.zones) (machine := Sample.utc_machine) Sample.backend
        [Sample.anonymous] = inr cal
      /\ subcomponents cal = [ev]
      /\ property "summary" ev = Some (Text "Cours")
      /\ property "summary" ev <> Some (Text "Lesson").
Proof.
  split; [right; left; reflexivity|].
  split; [right; right; reflexivity|].
  split; [reflexivity|].
  split; [discriminate|].
  eexists. eexists. split; [reflexivity|]. split; [reflexivity|].
  split; [reflexivity | discriminate].
Qed.

Lemma display_fields_fall_back_witness :
  gives (subject Sample.math) "Math"
  /\ title_of Sample.math = "Math"
  /\ blank (subject Sample.anonymous)
  /\ blank (subject_name Sample.anonymous)
  /\ title_of Sample.anonymous = "Cours"
  /\ room_of Sample.anonymous = EmptyString.
Proof.
  assert (Hmath : gives (subject Sample.math) "Math") by (split; [reflexivity | discriminate]).
  assert (Hs : blank (subject Sample.anonymous)) by (right; left; reflexivity).
  assert (Hn : blank (subject_name Sample.anonymous)) by (right; right; reflexivity).
  assert (Hc : blank (classroom Sample.anonymous)) by (left; reflexivity).
  assert (Hcn : blank (classroom_name Sample.anonymous)) by (right; left; reflexivity).
  destruct (display_fields_fall_back (tzdb := Sample.zones) (machine := Sample.utc_machine)
              Sample.backend Sample.math) as (Htitle & _).
  destruct (display_fields_fall_back (tzdb := Sample.zones) (machine := Sample.utc_machine)
              Sample.backend Sample.anonymous) as (_ & _ & Hdefault & _ & _ & Hroom & _).
  split; [exact Hmath|]. split; [exact (Htitle "Math" Hmath)|].
  split; [exact Hs|]. split; [exact Hn|].
  split; [exact (Hdefault Hs Hn) | exact (Hroom Hc Hcn)].
Defined.

End FeedProps.

(* ------------------------------------------------------------------ *)
(** ** The cache over sequences of requests *)

Module CacheMore.
Import Py Datetime Pronote Provenance CacheProps.
Open Scope string_scope.
Open Scope Z_scope.

(** A call is a hit, or a miss whose fetch returns, or a miss whose fetch
    raises; the world after the call in each case. *)
Lemma get_lessons_cases (p : Pronotepy) (now : Z) (sd ed : date) (w : World) :
  (_cache_range (self w) = (Some sd, Some ed) /\ now < _cache_until (self w)
   /\ get_lessons p now sd ed w = (inr (_cache_lessons (self w)), w))
  \/ ((_cache_range (self w) <> (Some sd, Some ed) \/ _cache_until (self w) <= now)
      /\ exists lessons,
          fst (_fetch_lessons p sd ed w) = inr lessons
          /\ get_lessons p now sd ed w
             = (inr lessons,
                {| self := set_cache_until (now + cache_ttl (self w))
                             (set_cache_range (Some sd, Some ed)
                                (set_cache_lessons lessons (self w)));
                   upstream_calls := (upstream_calls w ++ [(sd, ed)])%list |}))
  \/ ((_cache_range (self w) <> (Some sd, Some ed) \/ _cache_until (self w) <= now)
      /\ exists e,
          fst (_fetch_lessons p sd ed w) = inl e
          /\ get_lessons p now sd ed w
             = (inl e, {| self := self w;
                          upstream_calls := (upstream_calls w ++ [(sd, ed)])%list |})).
Proof.
  destruct (hit_or_miss (self w) now sd ed) as [[Hr Hnow]|Hmiss].
  - left. repeat split; try assumption. apply get_lessons_on_hit; assumption.
  - right. rewrite (get_lessons_on_miss p now sd ed w Hmiss).
    destruct (fst (_fetch_lessons p sd ed w)) as [e|lessons].
    + right. split; [exact Hmiss|]. exists e. split; reflexivity.
    + left. split; [exact Hmiss|]. exists lessons. split; reflexivity.
Qed.

(** The outcome of a fetch, read off [_login] and [_fetch_lessons]. *)
Lemma fetch_outcome (p : Pronotepy) (sd ed : date) (w : World) :
  fst (_fetch_lessons p sd ed w)
  = if truthy (Some (ent_name (self w))) then
      inl (RuntimeError "Cette version de pronotepy ne gère pas ent_list directement.")
    else
      match p (url (self w)) (user (self w)) (pwd (self w)) with
      | inl e => inl e
      | inr client =>
          if negb (logged_in client) then
            inl (RuntimeError "Échec de connexion (vérifie URL/identifiants).")
          else timetable client sd ed
      end.
Proof.
  cbv beta iota delta [_fetch_lessons _login bind record_fetch get_self lift raise ret].
  cbn [self upstream_calls].
  destruct (truthy (Some (ent_name (self w)))); [reflexivity|].
  destruct (p (url (self w)) (user (self w)) (pwd (self w))) as [e|client]; [reflexivity|].
  destruct (negb (logged_in client)); reflexivity.
Qed.

(** The outcome of a fetch depends on the backend through its address, its
    credentials and its ENT only. *)
Lemma fetch_outcome_of_config (p : Pronotepy) (sd ed : date) (w1 w2 : World) :
  url (self w1) = url (self w2) ->
  user (self w1) = user (self w2) ->
  pwd (self w1) = pwd (self w2) ->
  ent_name (self w1) = ent_name (self w2) ->
  fst (_fetch_lessons p sd ed w1) = fst (_fetch_lessons p sd ed w2).
Proof.
  intros Hu Hn Hp He. rewrite !fetch_outcome, Hu, Hn, Hp, He. reflexivity.
Qed.

(** No call changes the address, the credentials, the ENT, the zone or the
    TTL of the backend. *)
Lemma get_lessons_keeps_config (p : Pronotepy) (now : Z) (sd ed : date) (w : World) :
  let b' := self (snd (get_lessons p now sd ed w)) in
  url b' = url (self w) /\ user b' = user (self w) /\ pwd b' = pwd (self w)
  /\ ent_name b' = ent_name (self w) /\ local_tz b' = local_tz (self w)
  /\ cache_ttl b' = cache_ttl (self w).
Proof.
  destruct (get_lessons_cases p now sd ed w)
    as [(_ & _ & ->)|[(_ & lessons & _ & ->)|(_ & e & _ & ->)]];
    cbn; repeat split.
Qed.

Lemma run_keeps_config (calls : list Call) :
  forall w : World,
    let b' := self (run calls w) in
    url b' = url (self w) /\ user b' = user (self w) /\ pwd b' = pwd (self w)
    /\ ent_name b' = ent_name (self w) /\ local_tz b' = local_tz (self w)
    /\ cache_ttl b' = cache_ttl (self w).
Proof.
  induction calls as [|c rest IH]; intros w.
  - cbn. repeat split.
  - change (run (c :: rest) w) with (run rest (snd (perform c w))).
    destruct (IH (snd (perform c w))) as (H1 & H2 & H3 & H4 & H5 & H6).
    destruct (get_lessons_keeps_config (service c) (at_time c) (fst (window c))
                (snd (window c)) w) as (K1 & K2 & K3 & K4 & K5 & K6).
    unfold perform in *. cbv zeta.
    repeat split; congruence.
Qed.

(** The cache agrees with the last storing call all along a sequence. *)
Lemma holds_along (calls : list Call) :
  forall (w : World) (acc : option Fetched),
    holds w acc -> holds (run calls w) (last_fetched calls w acc).
Proof.
  induction calls as [|c rest IH]; intros w acc Hholds; [exact Hholds|].
  change (run (c :: rest) w) with (run rest (snd (perform c w))).
  cbn [last_fetched]. unfold perform at 2.
  destruct (get_lessons_cases (service c) (at_time c) (fst (window c)) (snd (window c)) w)
    as [(_ & _ & Hcall)|[(_ & lessons & _ & Hcall)|(_ & e & _ & Hcall)]];
    unfold perform; rewrite Hcall; cbn [snd]; apply IH.
  - cbn [stored]. rewrite Nat.eqb_refl. exact Hholds.
  - cbn [stored upstream_calls]. rewrite length_app. cbn [List.length].
    replace (Nat.eqb _ _) with false by (symmetry; apply Nat.eqb_neq; lia).
    cbn. repeat split.
  - destruct acc as [f|]; exact Hholds.
Qed.

(** X1 - What is served is fresh. After any sequence of calls on a new
    backend, a call that returns lessons either fetched them from the service
    itself, or changes nothing and returns the lessons that the last storing
    call fetched for the same window less than one TTL before, by the
    clock. *)
Theorem served_lessons_are_fresh
        (url user pwd ent : str) (tz : option tzref) (ttl : Z) (calls : list Call)
        (p : Pronotepy) (now : Z) (sd ed : date) (lessons : list Lesson) :
  let w0 := fresh (__init__ url user pwd ent tz ttl) in
  let w := run calls w0 in
  fst (get_lessons p now sd ed w) = inr lessons ->
  (fst (_fetch_lessons p sd ed w) = inr lessons
   /\ upstream_calls (snd (get_lessons p now sd ed w)) = (upstream_calls w ++ [(sd, ed)])%list)
  \/ (snd (get_lessons p now sd ed w) = w
      /\ exists f : Fetched,
          last_fetched calls w0 None = Some f
          /\ fetched_for f = (sd, ed)
          /\ fetched f = lessons
          /\ now < fetched_at f + ttl).
Proof.
  intros w0 w Hok.
  pose proof (holds_along calls w0 None eq_refl) as Hholds. fold w in Hholds.
  destruct (run_keeps_config calls w0) as (_ & _ & _ & _ & _ & Httl).
  fold w in Httl. cbn in Httl.
  destruct (get_lessons_cases p now sd ed w)
    as [(Hr & Hnow & Hcall)|[(_ & fetched & Hf & Hcall)|(_ & e & _ & Hcall)]];
    rewrite Hcall in Hok |- *; cbn [fst snd] in *.
  - right. split; [reflexivity|].
    destruct (last_fetched calls w0 None) as [f|]; cbn [holds] in Hholds.
    + destruct Hholds as (Hrange & Hlessons & Huntil).
      exists f. rewrite Hr in Hrange. injection Hrange as Hs He.
      split; [reflexivity|]. split.
      * destruct (fetched_for f). cbn in *. congruence.
      * split; [congruence|]. rewrite Httl in Huntil. lia.
    + rewrite Hr in Hholds. discriminate.
  - left. injection Hok as <-. split; [exact Hf | reflexivity].
  - discriminate.
Qed.

Lemma served_lessons_are_fresh_witness :
  let w0 := fresh Sample.backend in
  let calls := [Sample.call 1709539200 8 (Sample.serving [Sample.math]);
                Sample.call 1709539230 8 Sample.failing] in
  let W := Sample.window_of 8 in
  fst (get_lessons Sample.failing 1709539300 (fst W) (snd W) (run calls w0))
  = inr [Sample.math]
  /\ exists f : Fetched,
      last_fetched calls w0 None = Some f
      /\ fetched_at f = 1709539200
      /\ fetched f = [Sample.math].
Proof.
  intros w0 calls W.
  assert (Hok : fst (get_lessons Sample.failing 1709539300 (fst W) (snd W) (run calls w0))
                = inr [Sample.math]) by reflexivity.
  split; [exact Hok|].
  destruct (served_lessons_are_fresh
              "https://demo.index-education.net/pronote/eleve.html" "demonstration"
              "secret" EmptyString (Some "Europe/Paris") 120 calls
              Sample.failing 1709539300 (fst W) (snd W) [Sample.math] Hok)
    as [[Hfetch _]|(_ & f & Hlast & _ & Hlessons & _)].
  - discriminate Hfetch.
  - exists f. split; [exact Hlast|]. split; [|exact Hlessons].
    vm_compute in Hlast. injection Hlast as <-. reflexivity.
Defined.

Lemma last_cons (l : list Z) : forall x t : Z, last (x :: l) t = last l x.
Proof.
  induction l as [|y l IH]; intros x t; [reflexivity|].
  transitivity (last l y).
  - change (last (y :: l) t = last l y). apply IH.
  - symmetry. apply IH.
Qed.

(** Along calls for one window whose fetches all return, the fetches are at
    least one TTL apart. *)
Lemma spacing_along (b : PronoteBackend) (W : date * date) (ttl t0 : Z) (rest : list Call) :
  forall (w : World) (t : Z),
    url (self w) = url b -> user (self w) = user b -> pwd (self w) = pwd b ->
    ent_name (self w) = ent_name b ->
    _cache_range (self w) = (Some (fst W), Some (snd W)) ->
    cache_ttl (self w) = ttl ->
    (Z.of_nat (List.length (upstream_calls w)) - 1) * ttl
      <= _cache_until (self w) - ttl - t0 ->
    _cache_until (self w) - ttl <= t ->
    chronological_from t rest ->
    all_for W rest ->
    Forall (fun c => exists lessons,
                fst (_fetch_lessons (service c) (fst W) (snd W) (fresh b)) = inr lessons)
           rest ->
    (Z.of_nat (List.length (upstream_calls (run rest w))) - 1) * ttl
      <= last_time rest t - t0.
Proof.
  unfold last_time.
  induction rest as [|c rest IH]; intros w t Hu Hn Hp He Hr Httl Hcount Hlast Hchrono Hall Hok.
  - cbn. lia.
  - destruct Hchrono as [Hle Hchrono].
    pose proof (Forall_inv Hall) as Hwin. cbn in Hwin.
    pose proof (Forall_inv_tail Hall) as Hall'.
    destruct (Forall_inv Hok) as [lessons Hlessons].
    pose proof (Forall_inv_tail Hok) as Hok'.
    change (run (c :: rest) w) with (run rest (snd (perform c w))).
    replace (last (map at_time (c :: rest)) t) with (last (map at_time rest) (at_time c)).
    2:{ cbn [map]. symmetry. apply last_cons. }
    unfold perform. rewrite Hwin.
    destruct (get_lessons_cases (service c) (at_time c) (fst W) (snd W) w)
      as [(_ & _ & Hcall)|[(Hmiss & fetched & _ & Hcall)|(_ & e & Hfail & _)]].
    + rewrite Hcall. cbn [snd].
      apply IH; try assumption. lia.
    + rewrite Hcall. cbn [snd].
      assert (Hexp : _cache_until (self w) <= at_time c).
      { destruct Hmiss as [Hne|Hexp]; [|exact Hexp]. contradiction. }
      apply IH;
        cbn [self upstream_calls set_cache_until set_cache_range set_cache_lessons
             url user pwd ent_name cache_ttl _cache_range _cache_until];
        try assumption; try reflexivity.
      * rewrite length_app, Nat2Z.inj_add. cbn [List.length]. lia.
      * lia.
    + rewrite (fetch_outcome_of_config (service c) _ _ w (fresh b)) in Hfail
        by assumption.
      rewrite Hlessons in Hfail. discriminate.
Qed.

(** X2 - The fetches are spaced by the TTL. In a chronological sequence of
    calls on a new backend, all for one window and with a service that
    answers whenever it is asked, the number of upstream calls less one,
    times the TTL, is at most the time between the first and the last
    call. *)
Theorem fetches_are_spaced_by_the_ttl
        (url user pwd ent : str) (tz : option tzref) (ttl : Z)
        (W : date * date) (c0 : Call) (rest : list Call) :
  let w0 := fresh (__init__ url user pwd ent tz ttl) in
  all_for W (c0 :: rest) ->
  chronological (c0 :: rest) ->
  Forall (fun c => exists lessons,
              fst (_fetch_lessons (service c) (fst W) (snd W) w0) = inr lessons)
         (c0 :: rest) ->
  (Z.of_nat (List.length (upstream_calls (run (c0 :: rest) w0))) - 1) * ttl
    <= last_time rest (at_time c0) - at_time c0.
Proof.
  intros w0 Hall Hchrono Hok.
  pose proof (Forall_inv Hall) as Hwin. cbn in Hwin.
  pose proof (Forall_inv_tail Hall) as Hall'.
  destruct (Forall_inv Hok) as [lessons Hlessons].
  pose proof (Forall_inv_tail Hok) as Hok'.
  change (run (c0 :: rest) w0) with (run rest (snd (perform c0 w0))).
  unfold perform. rewrite Hwin.
  destruct (get_lessons_cases (service c0) (at_time c0) (fst W) (snd W) w0)
    as [(Hr & _ & _)|[(_ & fetched & _ & Hcall)|(_ & e & Hfail & _)]].
  - discriminate Hr.
  - rewrite Hcall. cbn [snd].
    apply (spacing_along (__init__ url user pwd ent tz ttl) W ttl (at_time c0) rest);
      cbn; try reflexivity; try assumption; lia.
  - rewrite Hlessons in Hfail. discriminate.
Qed.

Lemma fetches_are_spaced_by_the_ttl_witness :
  let calls := [Sample.call 1709539200 8 (Sample.serving []);
                Sample.call 1709539260 8 (Sample.serving []);
                Sample.call 1709539320 8 (Sample.serving [Sample.math]);
                Sample.call 1709539400 8 (Sample.serving [])] in
  List.length (upstream_calls (run calls (fresh Sample.backend))) = 2%nat
  /\ (Z.of_nat (List.length (upstream_calls (run calls (fresh Sample.backend)))) - 1) * 120
     <= 1709539400 - 1709539200.
Proof.
  intros calls. split; [reflexivity|].
  apply (fetches_are_spaced_by_the_ttl
           "https://demo.index-education.net/pronote/eleve.html" "demonstration"
           "secret" EmptyString (Some "Europe/Paris") 120 (Sample.window_of 8)
           (Sample.call 1709539200 8 (Sample.serving []))
           [Sample.call 1709539260 8 (Sample.serving []);
            Sample.call 1709539320 8 (Sample.serving [Sample.math]);
            Sample.call 1709539400 8 (Sample.serving [])]).
  - repeat constructor.
  - cbn. lia.
  - repeat constructor; eexists; reflexivity.
Defined.

(** While every call misses on the state it finds and every fetch raises,
    every call goes to the service and the backend stays as it is. *)
Lemma run_of_failures (calls : list Call) :
  forall w : World,
    Forall (fun c =>
              (_cache_range (self w) <> (Some (fst (window c)), Some (snd (window c)))
               \/ _cache_until (self w) <= at_time c)
              /\ exists e,
                  fst (_fetch_lessons (service c) (fst (window c)) (snd (window c)) w)
                  = inl e) calls ->
    self (run calls w) = self w
    /\ upstream_calls (run calls w) = (upstream_calls w ++ map window calls)%list.
Proof.
  induction calls as [|c rest IH]; intros w Hfail.
  - cbn. rewrite app_nil_r. auto.
  - destruct (Forall_inv Hfail) as [Hmiss [e He]].
    pose proof (Forall_inv_tail Hfail) as Hfail'.
    change (run (c :: rest) w) with (run rest (snd (perform c w))).
    unfold perform.
    rewrite (get_lessons_on_miss (service c) (at_time c) _ _ w Hmiss), He. cbn [snd].
    destruct (IH {| self := self w;
                    upstream_calls := (upstream_calls w
                                       ++ [(fst (window c), snd (window c))])%list |})
      as [Hb Hcalls].
    { apply (Forall_impl _ (P := fun c0 =>
               (_cache_range (self w) <> (Some (fst (window c0)), Some (snd (window c0)))
                \/ _cache_until (self w) <= at_time c0)
               /\ exists e0,
                   fst (_fetch_lessons (service c0) (fst (window c0)) (snd (window c0)) w)
                   = inl e0)); [|exact Hfail'].
      intros c0 [Hm [e0 He0]]. split; [exact Hm|]. exists e0.
      rewrite <- He0. apply fetch_outcome_of_config; reflexivity. }
    split; [exact Hb|]. rewrite Hcalls. cbn [upstream_calls map].
    rewrite <- app_assoc. destruct (window c). reflexivity.
Qed.

(** X3 - Failures are not cached. When the cache is empty, or has expired
    before each of the calls, and every fetch raises, every call goes to the
    service: the upstream calls grow by the windows of the calls, one for one
    and in order, and the backend stays as it was, stale lessons included. *)
Theorem failures_are_not_cached (w : World) (calls : list Call) :
  _cache_range (self w) = (None, None)
  \/ Forall (fun c => _cache_until (self w) <= at_time c) calls ->
  Forall (fun c => exists e,
              fst (_fetch_lessons (service c) (fst (window c)) (snd (window c)) w)
              = inl e) calls ->
  self (run calls w) = self w
  /\ upstream_calls (run calls w) = (upstream_calls w ++ map window calls)%list.
Proof.
  intros Hmiss Hfail. apply run_of_failures.
  apply Forall_forall. intros c Hin.
  split.
  - destruct Hmiss as [Hempty|Hexpired].
    + left. rewrite Hempty. discriminate.
    + right. apply (proj1 (Forall_forall _ _) Hexpired c Hin).
  - apply (proj1 (Forall_forall _ _) Hfail c Hin).
Qed.

Lemma failures_are_not_cached_witness :
  let w := run [Sample.call 1709539200 8 (Sample.serving [Sample.math])]
               (fresh Sample.backend) in
  let calls := [Sample.call 1709539320 8 Sample.failing;
                Sample.call 1709539321 8 Demo.refusing;
                Sample.call 1709539322 8 Sample.failing] in
  _cache_lessons (self (run calls w)) = [Sample.math]
  /\ upstream_calls (run calls w)
     = [Sample.window_of 8; Sample.window_of 8; Sample.window_of 8; Sample.window_of 8].
Proof.
  intros w calls.
  destruct (failures_are_not_cached w calls) as [Hself Hcalls].
  - right. repeat constructor; cbn; lia.
  - repeat constructor; eexists; reflexivity.
  - split; [rewrite Hself; reflexivity | exact Hcalls].
Defined.

(** X4 - An ENT makes every request fail. When the ENT name given to the
    constructor is not blank, every call after any sequence of calls raises
    the [RuntimeError] of [_login], whatever the service would answer, and
    the cache never receives anything. *)
Theorem ent_makes_every_call_fail
        (url user pwd ent : str) (tz : option tzref) (ttl : Z) (calls : list Call)
        (p : Pronotepy) (now : Z) (sd ed : date) :
  strip ent <> EmptyString ->
  let b := __init__ url user pwd ent tz ttl in
  fst (get_lessons p now sd ed (run calls (fresh b)))
  = inl (RuntimeError "Cette version de pronotepy ne gère pas ent_list directement.")
  /\ self (run calls (fresh b)) = b
  /\ self (snd (get_lessons p now sd ed (run calls (fresh b)))) = b.
Proof.
  intros Hent b.
  assert (Htruthy : truthy (Some (ent_name b)) = true).
  { cbn. destruct (String.eqb (strip ent) EmptyString) eqn:He; [|reflexivity].
    apply String.eqb_eq in He. contradiction. }
  assert (Hfail : forall (q : Pronotepy) (s e : date) (w : World),
             self w = b ->
             fst (_fetch_lessons q s e w)
             = inl (RuntimeError
                      "Cette version de pronotepy ne gère pas ent_list directement.")).
  { intros q s e w Hw. rewrite fetch_outcome, Hw, Htruthy. reflexivity. }
  assert (Hrun : self (run calls (fresh b)) = b).
  { apply (run_of_failures calls (fresh b)).
    apply Forall_forall. intros c _. split; [left; discriminate|].
    eexists. apply Hfail. reflexivity. }
  split; [|split; [exact Hrun|]].
  - destruct (get_lessons_cases p now sd ed (run calls (fresh b)))
      as [(Hr & _ & _)|[(_ & lessons & Hok & _)|(_ & e & He & Hcall)]].
    + rewrite Hrun in Hr. discriminate Hr.
    + rewrite (Hfail p sd ed _ Hrun) in Hok. discriminate.
    + rewrite Hcall. cbn [fst]. rewrite <- He. apply Hfail. exact Hrun.
  - destruct (get_lessons_cases p now sd ed (run calls (fresh b)))
      as [(Hr & _ & _)|[(_ & lessons & Hok & _)|(_ & e & He & Hcall)]].
    + rewrite Hrun in Hr. discriminate Hr.
    + rewrite (Hfail p sd ed _ Hrun) in Hok. discriminate.
    + rewrite Hcall. exact Hrun.
Qed.

Lemma ent_makes_every_call_fail_witness :
  strip " EcoleDirecte " <> EmptyString
  /\ fst (get_lessons (Sample.serving [Sample.math]) 1709539200
            (fst (Sample.window_of 8)) (snd (Sample.window_of 8))
            (run [Sample.call 1709539100 8 (Sample.serving [])] (fresh Demo.with_ent)))
     = inl (RuntimeError "Cette version de pronotepy ne gère pas ent_list directement.").
Proof.
  assert (Hent : strip " EcoleDirecte " <> EmptyString) by discriminate.
  split; [exact Hent|].
  apply (ent_makes_every_call_fail
           "https://demo.index-education.net/pronote/eleve.html" "demonstration"
           "secret" " EcoleDirecte " (Some "Europe/Paris") 120
           [Sample.call 1709539100 8 (Sample.serving [])]
           (Sample.serving [Sample.math]) 1709539200
           (fst (Sample.window_of 8)) (snd (Sample.window_of 8)) Hent).
Defined.

(** X5 - When a fetch returns. [_fetch_lessons] returns lessons exactly
    when no ENT is set, the library opens a session, the session is logged
    in and its timetable request returns those lessons; a session that is
    not logged in gives the [RuntimeError] of a failed login, and an
    exception of the library comes out as it is. *)
Theorem fetch_returns_iff (p : Pronotepy) (sd ed : date) (w : World) :
  (forall lessons : list Lesson,
      fst (_fetch_lessons p sd ed w) = inr lessons
      <-> ent_name (self w) = EmptyString
          /\ exists client : Client,
              p (url (self w)) (user (self w)) (pwd (self w)) = inr client
              /\ logged_in client = true
              /\ timetable client sd ed = inr lessons)
  /\ (forall client : Client,
        ent_name (self w) = EmptyString ->
        p (url (self w)) (user (self w)) (pwd (self w)) = inr client ->
        logged_in client = false ->
        fst (_fetch_lessons p sd ed w)
        = inl (RuntimeError "Échec de connexion (vérifie URL/identifiants)."))
  /\ (forall e : Exception,
        ent_name (self w) = EmptyString ->
        p (url (self w)) (user (self w)) (pwd (self w)) = inl e ->
        fst (_fetch_lessons p sd ed w) = inl e).
Proof.
  rewrite fetch_outcome. split; [|split].
  - intros lessons. split.
    + destruct (truthy (Some (ent_name (self w)))) eqn:Hent; [discriminate|].
      apply FeedProps.truthy_false_iff in Hent.
      destruct (p _ _ _) as [e|client]; [discriminate|].
      destruct (logged_in client) eqn:Hlog; [|discriminate].
      intros Hok. split; [exact Hent|]. exists client. auto.
    + intros (Hent & client & Hclient & Hlog & Hok).
      rewrite Hent, Hclient, Hlog. exact Hok.
  - intros client Hent Hclient Hlog. rewrite Hent, Hclient, Hlog. reflexivity.
  - intros e Hent Hclient. rewrite Hent, Hclient. reflexivity.
Qed.

Lemma fetch_returns_iff_witness :
  fst (_fetch_lessons (Sample.serving [Sample.math]) 1 2 (fresh Sample.backend))
  = inr [Sample.math]
  /\ fst (_fetch_lessons Demo.refusing 1 2 (fresh Sample.backend))
     = inl (RuntimeError "Échec de connexion (vérifie URL/identifiants).").
Proof.
  destruct (fetch_returns_iff (Sample.serving [Sample.math]) 1 2 (fresh Sample.backend))
    as (Hiff & _ & _).
  destruct (fetch_returns_iff Demo.refusing 1 2 (fresh Sample.backend))
    as (_ & Hrefused & _).
  split.
  - apply Hiff. split; [reflexivity|]. eexists. repeat split.
  - apply (Hrefused {| logged_in := false; timetable := fun _ _ => inr [] |});
      reflexivity.
Defined.

End CacheMore.

(* ------------------------------------------------------------------ *)
(** ** The calendar beyond the identifier and the status *)

Module FeedMore.
Import Py Datetime Pronote Feed Console FeedProps.
Open Scope string_scope.
Open Scope Z_scope.

Lemma append_assoc (a b c : str) : (a ++ b) ++ c = a ++ b ++ c.
Proof.
  induction a as [|x a IH]; [reflexivity|]. cbn. rewrite IH. reflexivity.
Qed.

Lemma append_nil_r (a : str) : a ++ EmptyString = a.
Proof.
  induction a as [|x a IH]; [reflexivity|]. cbn. rewrite IH. reflexivity.
Qed.

Lemma truthy_true_iff (s : str) : truthy (Some s) = true <-> s <> EmptyString.
Proof.
  cbn. rewrite negb_true_iff. apply String.eqb_neq.
Qed.

Lemma inr_Some_inj {E A : Type} (l1 l2 : list A) :
  map (fun x => @inr E _ (Some x)) l1 = map (fun x => @inr E _ (Some x)) l2 -> l1 = l2.
Proof.
  revert l2. induction l1 as [|x l1 IH]; intros [|y l2] H; try discriminate.
  - reflexivity.
  - cbn in H. injection H as Hx Hl. rewrite Hx, (IH l2 Hl). reflexivity.
Qed.

Section WithZones.
Context {tzdb : TzDatabase} {machine : Machine}.
Variable me : PronoteBackend.

(** The loop over two lists put end to end. *)
Lemma for_lessons_app (l1 l2 : list Lesson) :
  forall cal : Calendar,
    for_lessons me cal (l1 ++ l2)
    = match for_lessons me cal l1 with
      | inr cal1 => for_lessons me cal1 l2
      | inl e => inl e
      end.
Proof.
  induction l1 as [|x l1 IH]; intros cal; [reflexivity|].
  cbn [app for_lessons]. destruct (event_of me x) as [e|[ev|]]; [reflexivity| |]; apply IH.
Qed.

(** X6 - The calendar as a whole. A calendar that is built carries the
    product identifier and the version 2.0 and nothing else of its own;
    without lessons it is built and has no event; when the calendars of two
    lists are built, so is the calendar of the two lists put end to end, and
    its events are the events of the first followed by those of the second;
    and when the build of one of the two lists raises, the build of the two
    put end to end raises the same, the first list going first. *)
Theorem calendar_of_lists (lessons1 lessons2 : list Lesson) :
  (forall cal1 : Calendar,
      lessons_to_ics me lessons1 = inr cal1 ->
      properties cal1
      = [("prodid", Text "-//Pronote ICS//Assia//FR"); ("version", Text "2.0")])
  /\ (exists cal0 : Calendar,
        lessons_to_ics me [] = inr cal0 /\ subcomponents cal0 = [])
  /\ (forall cal1 cal2 : Calendar,
        lessons_to_ics me lessons1 = inr cal1 ->
        lessons_to_ics me lessons2 = inr cal2 ->
        exists cal : Calendar,
          lessons_to_ics me (lessons1 ++ lessons2) = inr cal
          /\ subcomponents cal = (subcomponents cal1 ++ subcomponents cal2)%list)
  /\ (forall e : Exception,
        lessons_to_ics me lessons1 = inl e ->
        lessons_to_ics me (lessons1 ++ lessons2) = inl e)
  /\ (forall (cal1 : Calendar) (e : Exception),
        lessons_to_ics me lessons1 = inr cal1 ->
        lessons_to_ics me lessons2 = inl e ->
        lessons_to_ics me (lessons1 ++ lessons2) = inl e).
Proof.
  unfold lessons_to_ics. cbv zeta.
  match goal with |- context [for_lessons me ?c lessons1] => set (cal0 := c) end.
  split; [|split; [|split; [|split]]].
  - intros cal1 H1. pose proof (loop_appends me lessons1 cal0) as Hloop.
    rewrite H1 in Hloop. destruct Hloop as (Hp & _). rewrite Hp. reflexivity.
  - exists cal0. split; reflexivity.
  - intros cal1 cal2 H1 H2. rewrite for_lessons_app, H1.
    pose proof (loop_appends me lessons2 cal0) as Hloop2. rewrite H2 in Hloop2.
    destruct Hloop2 as (_ & Hall & Hs2).
    destruct (loop_ends me lessons2 cal1 Hall) as [cal Hcal].
    pose proof (loop_appends me lessons2 cal1) as Hloop. rewrite Hcal in Hloop.
    destruct Hloop as (_ & _ & Hs).
    exists cal. split; [exact Hcal|].
    apply (inr_Some_inj (E := Exception)).
    rewrite Hs, map_app. f_equal. rewrite Hs2. reflexivity.
  - intros e H1. rewrite for_lessons_app, H1. reflexivity.
  - intros cal1 e H1 H2. rewrite for_lessons_app, H1.
    pose proof (loop_appends me lessons2 cal0) as Hloop2. rewrite H2 in Hloop2.
    destruct Hloop2 as [-> Hex].
    pose proof (loop_appends me lessons2 cal1) as Hloop.
    destruct (for_lessons me cal1 lessons2) as [e'|cal].
    + destruct Hloop as [-> _]. reflexivity.
    + destruct Hloop as (_ & Hall & _). apply Exists_exists in Hex.
      destruct Hex as (lesson & Hin & Hn).
      rewrite Forall_forall in Hall. rewrite (Hall lesson Hin) in Hn. discriminate.
Qed.

(** The description of an event, from the lines the loop collects. *)
Lemma event_description (lesson : Lesson) (s e : datetime) :
  property "description" (event_for lesson s e)
  = Some (Text
            (match ((if truthy (Some (teacher_of lesson))
                     then [("Enseignant·e : " ++ teacher_of lesson)%string] else [])
                    ++ (if truthy (Some (room_of lesson))
                        then [("Salle : " ++ room_of lesson)%string] else [])
                    ++ (if canceled_of lesson then ["⚠️ Séance annulée"] else []))%list
             with
             | [] => "Séance"
             | lines => join newline lines
             end)).
Proof.
  unfold event_for.
  destruct (truthy (Some (teacher_of lesson))), (truthy (Some (room_of lesson))),
           (canceled_of lesson); reflexivity.
Qed.

(** X7 - The description. The description of an event is never empty; it
    is the placeholder [Séance] exactly when the lesson has no teacher, no
    room and is not canceled; when the lesson has a teacher it opens with the
    teacher line, and when the lesson is canceled it closes with the
    warning. *)
Theorem description_of_an_event (lesson : Lesson) (ev : Event) :
  event_of me lesson = inr (Some ev) ->
  exists d : str,
    property "description" ev = Some (Text d)
    /\ d <> EmptyString
    /\ (d = "Séance"
        <-> teacher_of lesson = EmptyString /\ room_of lesson = EmptyString
            /\ canceled_of lesson = false)
    /\ (teacher_of lesson <> EmptyString ->
        exists rest : str, d = "Enseignant·e : " ++ teacher_of lesson ++ rest)
    /\ (canceled_of lesson = true ->
        exists before : str, d = before ++ "⚠️ Séance annulée").
Proof.
  intros Hev. apply event_of_inv in Hev. destruct Hev as (s & e & _ & _ & ->).
  rewrite (event_description lesson s e). eexists. split; [reflexivity|].
  destruct (truthy (Some (teacher_of lesson))) eqn:Ht,
           (truthy (Some (room_of lesson))) eqn:Hr,
           (canceled_of lesson) eqn:Hc;
    try apply truthy_true_iff in Ht; try apply truthy_false_iff in Ht;
    try apply truthy_true_iff in Hr; try apply truthy_false_iff in Hr;
    cbn [app join];
    (split; [discriminate|]);
    (split; [split; [discriminate || tauto | intros (H1 & H2 & H3); congruence]|]);
    (split; [intros Hteacher; try contradiction | intros Hcanceled; try discriminate]).
  - exists (newline ++ ("Salle : " ++ room_of lesson) ++ newline ++ "⚠️ Séance annulée").
    rewrite !append_assoc. reflexivity.
  - exists ((("Enseignant·e : " ++ teacher_of lesson) ++ newline
             ++ ("Salle : " ++ room_of lesson) ++ newline)).
    rewrite !append_assoc. reflexivity.
  - exists (newline ++ "Salle : " ++ room_of lesson).
    rewrite !append_assoc. reflexivity.
  - exists (newline ++ "⚠️ Séance annulée").
    rewrite !append_assoc. reflexivity.
  - exists (("Enseignant·e : " ++ teacher_of lesson) ++ newline).
    rewrite !append_assoc. reflexivity.
  - exists EmptyString. rewrite append_nil_r. reflexivity.
  - exists (("Salle : " ++ room_of lesson) ++ newline).
    rewrite !append_assoc. reflexivity.
  - exists EmptyString. reflexivity.
Qed.

(** X8 - The shape of an event. An event has the properties summary,
    description, uid, dtstart, dtend and status in this order, with location
    after the description exactly when the lesson has a room; no property
    comes twice; and the location, when there is one, is the room. *)
Theorem shape_of_an_event (lesson : Lesson) (ev : Event) :
  event_of me lesson = inr (Some ev) ->
  map fst ev
  = ("summary" :: "description"
     :: (if String.eqb (room_of lesson) EmptyString then [] else ["location"])
     ++ ["uid"; "dtstart"; "dtend"; "status"])%list
  /\ NoDup (map fst ev)
  /\ (property "location" ev = None <-> room_of lesson = EmptyString)
  /\ (room_of lesson <> EmptyString ->
      property "location" ev = Some (Text (room_of lesson))).
Proof.
  intros Hev. apply event_of_inv in Hev. destruct Hev as (s & e & _ & _ & ->).
  unfold event_for, truthy.
  destruct (String.eqb (room_of lesson) EmptyString) eqn:Hroom; cbn [negb].
  - apply String.eqb_eq in Hroom.
    split; [reflexivity|]. split.
    + cbn. repeat constructor; cbn; intuition discriminate.
    + split; [split; [intros _; exact Hroom | reflexivity]|].
      intros Hne. contradiction.
  - apply String.eqb_neq in Hroom.
    split; [reflexivity|]. split.
    + cbn. repeat constructor; cbn; intuition discriminate.
    + split; [split; [discriminate | intros Hempty; contradiction]|].
      intros _. reflexivity.
Qed.

(** X9 - What the identifier does not see. Two lessons whose starts
    normalise to the same value and whose titles, rooms and teachers are the
    same get the same identifier, whatever their ends, groups, canceled
    flags, and whichever of the two attributes of a field gave the text. *)
Theorem identifier_ignores_the_rest (lesson1 lesson2 : Lesson) (ev1 ev2 : Event) :
  event_of me lesson1 = inr (Some ev1) ->
  event_of me lesson2 = inr (Some ev2) ->
  _to_local me (getattr (start lesson1) None) = _to_local me (getattr (start lesson2) None) ->
  title_of lesson1 = title_of lesson2 ->
  room_of lesson1 = room_of lesson2 ->
  teacher_of lesson1 = teacher_of lesson2 ->
  property "uid" ev1 = property "uid" ev2
  /\ exists uid : str, property "uid" ev1 = Some (Text uid).
Proof.
  intros Hev1 Hev2 Hstart Htitle Hroom Hteacher.
  apply event_of_inv in Hev1. destruct Hev1 as (s1 & e1 & Hs1 & _ & ->).
  apply event_of_inv in Hev2. destruct Hev2 as (s2 & e2 & Hs2 & _ & ->).
  destruct (event_for_properties lesson1 s1 e1) as (_ & _ & Hu1 & _).
  destruct (event_for_properties lesson2 s2 e2) as (_ & _ & Hu2 & _).
  rewrite Hs1, Hs2 in Hstart. injection Hstart as ->.
  rewrite Hu1, Hu2, Htitle, Hroom, Hteacher.
  split; [reflexivity|]. eexists. reflexivity.
Qed.

(** X10 - Normalised times are in the local zone and stay as they are.
    When [tz.gettz] knew the zone, whatever [_to_local] returns carries that
    zone, normalising it once more changes nothing, and so the start and the
    end of every event of a calendar carry the zone. When it did not, a time
    without zone comes back as it is, still without zone, and a time with a
    zone comes back, if at all, in the zone of the machine. *)
Theorem normalised_times_are_local :
  (forall tz : tzref,
      local_tz me = Some tz ->
      (forall (dt : option datetime) (d : datetime),
          _to_local me dt = inr (Some d) ->
          tzinfo d = Some tz /\ _to_local me (Some d) = inr (Some d))
      /\ (forall (lessons : list Lesson) (cal : Calendar) (ev : Event),
            lessons_to_ics me lessons = inr cal ->
            In ev (subcomponents cal) ->
            exists s e : datetime,
              property "dtstart" ev = Some (Time s) /\ tzinfo s = Some tz
              /\ property "dtend" ev = Some (Time e) /\ tzinfo e = Some tz))
  /\ (local_tz me = None ->
      (forall dt : datetime,
          tzinfo dt = None ->
          _to_local me (Some dt) = inr (Some dt))
      /\ (forall (dt d : datetime) (mytz : tzref),
            tzinfo dt = Some mytz ->
            _to_local me (Some dt) = inr (Some d) ->
            tzinfo d
            = Some (local_timezone
                      (posix (wall dt - utcoffset (zone mytz) (wall dt) (fold dt)))))).
Proof.
  split.
  - intros tz Hlocal.
    assert (Hzone : forall (dt : option datetime) (d : datetime),
               _to_local me dt = inr (Some d) ->
               tzinfo d = Some tz /\ _to_local me (Some d) = inr (Some d)).
    { intros dt d Hd.
      assert (Htz : tzinfo d = Some tz).
      { destruct dt as [dt|]; cbn in Hd; [|discriminate].
        destruct (tzinfo dt) as [mytz|] eqn:Haware.
        - rewrite astimezone_eq, Hlocal in Hd. cbv zeta in Hd.
          destruct (String.eqb tz mytz) eqn:Hsame.
          + apply String.eqb_eq in Hsame. injection Hd as <-. congruence.
          + destruct (representable _ && representable _); [|discriminate].
            injection Hd as <-. reflexivity.
        - injection Hd as <-. cbn. exact Hlocal. }
      split; [exact Htz|].
      cbn. rewrite Htz, astimezone_eq, Hlocal, String.eqb_refl. reflexivity. }
    split; [exact Hzone|].
    intros lessons cal ev Hcal Hin. unfold lessons_to_ics in Hcal.
    match type of Hcal with for_lessons me ?c lessons = _ =>
      pose proof (loop_appends me lessons c) as Hloop
    end.
    rewrite Hcal in Hloop. destruct Hloop as (_ & _ & Hs). cbn in Hs.
    apply (in_map (fun ev => @inr Exception _ (Some ev))) in Hin. rewrite Hs in Hin.
    apply in_map_iff in Hin. destruct Hin as (lesson & Hev & _).
    apply event_of_inv in Hev. destruct Hev as (s & e & Hs' & He' & ->).
    destruct (event_for_properties lesson s e) as (_ & _ & _ & Hstart & Hend & _).
    exists s, e.
    split; [exact Hstart|]. split; [apply (Hzone _ s Hs')|].
    split; [exact Hend | apply (Hzone _ e He')].
  - intros Hlocal. split.
    + intros dt Hnaive. cbn. rewrite Hnaive, Hlocal. unfold replace_tzinfo.
      destruct dt as [w f z]. cbn in *. rewrite Hnaive. reflexivity.
    + intros dt d mytz Haware Hd. cbn in Hd.
      rewrite Haware, astimezone_eq, Hlocal in Hd. cbv zeta in Hd.
      destruct (representable _ && representable _); [|discriminate].
      injection Hd as <-. reflexivity.
Qed.

End WithZones.

Lemma calendar_of_lists_witness :
  exists cal : Calendar,
    lessons_to_ics (tzdb := Sample.zones) (machine := Sample.utc_machine) Sample.backend
      ([Sample.math; Sample.untimed] ++ [Demo.math_group_2]) = inr cal
    /\ List.length (subcomponents cal) = 2%nat.
Proof.
  destruct (calendar_of_lists (tzdb := Sample.zones) (machine := Sample.utc_machine)
              Sample.backend [Sample.math; Sample.untimed] [Demo.math_group_2])
    as (_ & _ & Happ & _).
  destruct (Happ _ _ eq_refl eq_refl) as (cal & Hcal & Hevents).
  exists cal. split; [exact Hcal|]. rewrite Hevents. reflexivity.
Defined.

Lemma description_of_an_event_witness :
  exists (ev : Event) (d : str),
    event_of (tzdb := Sample.zones) (machine := Sample.utc_machine)
      Sample.backend Demo.math_group_2 = inr (Some ev)
    /\ property "description" ev = Some (Text d)
    /\ d <> EmptyString
    /\ exists before : str, d = before ++ "⚠️ Séance annulée".
Proof.
  eexists.
  destruct (description_of_an_event (tzdb := Sample.zones) (machine := Sample.utc_machine)
              Sample.backend Demo.math_group_2 _ eq_refl)
    as (d & Hd & Hne & _ & _ & Hcanceled).
  exists d. split; [reflexivity|]. split; [exact Hd|]. split; [exact Hne|].
  apply Hcanceled. reflexivity.
Defined.

Lemma shape_of_an_event_witness :
  exists ev : Event,
    event_of (tzdb := Sample.zones) (machine := Sample.utc_machine)
      Sample.backend Sample.anonymous = inr (Some ev)
    /\ map fst ev = ["summary"; "description"; "uid"; "dtstart"; "dtend"; "status"]
    /\ property "location" ev = None.
Proof.
  eexists.
  destruct (shape_of_an_event (tzdb := Sample.zones) (machine := Sample.utc_machine)
              Sample.backend Sample.anonymous _ eq_refl)
    as (Hnames & _ & Hlocation & _).
  split; [reflexivity|]. split; [exact Hnames|].
  apply Hlocation. reflexivity.
Defined.

(** The lesson of the second group has another end, another summary and is
    canceled, and has the identifier of the first. *)
Lemma identifier_ignores_the_rest_witness :
  exists ev1 ev2 : Event,
    event_of (tzdb := Sample.zones) (machine := Sample.utc_machine)
      Sample.backend Sample.math = inr (Some ev1)
    /\ event_of (tzdb := Sample.zones) (machine := Sample.utc_machine)
         Sample.backend Demo.math_group_2 = inr (Some ev2)
    /\ property "summary" ev1 <> property "summary" ev2
    /\ property "dtend" ev1 <> property "dtend" ev2
    /\ property "uid" ev1 = property "uid" ev2.
Proof.
  eexists. eexists.
  split; [reflexivity|]. split; [reflexivity|].
  split; [discriminate|]. split; [discriminate|].
  apply (identifier_ignores_the_rest (tzdb := Sample.zones) (machine := Sample.utc_machine)
           Sample.backend Sample.math Demo.math_group_2 _ _ eq_refl eq_refl);
    reflexivity.
Defined.

(** With the zone known a time without zone receives it and then stays as
    it is; with the zone unknown it stays without zone, and a time in Paris
    comes back in the zone of the machine. *)
Lemma normalised_times_are_local_witness :
  let naive := make 2024 4 2 8 0 0 0 None in
  (exists d : datetime,
      _to_local (tzdb := Sample.zones) (machine := Sample.utc_machine) Sample.backend
        (Some naive) = inr (Some d)
      /\ tzinfo d = Some "Europe/Paris"
      /\ _to_local (tzdb := Sample.zones) (machine := Sample.utc_machine) Sample.backend
           (Some d) = inr (Some d))
  /\ _to_local (tzdb := Sample.zones) (machine := Sample.utc_machine) Sample.unzoned
       (Some naive) = inr (Some naive)
  /\ exists d : datetime,
      _to_local (tzdb := Sample.zones) (machine := Sample.utc_machine) Sample.unzoned
        (Some Sample.monday_8) = inr (Some d)
      /\ tzinfo d = Some "UTC".
Proof.
  intros naive.
  destruct (normalised_times_are_local (tzdb := Sample.zones)
              (machine := Sample.utc_machine) Sample.backend) as [Hknown _].
  destruct (Hknown "Europe/Paris" eq_refl) as [Hzone _].
  destruct (normalised_times_are_local (tzdb := Sample.zones)
              (machine := Sample.utc_machine) Sample.unzoned) as [_ Hunknown].
  destruct (Hunknown eq_refl) as [Hnaive Haware].
  split; [|split].
  - eexists. split; [reflexivity|]. apply (Hzone (Some naive) _ eq_refl).
  - apply (Hnaive naive). reflexivity.
  - eexists. split; [reflexivity|].
    apply (Haware Sample.monday_8 _ "Europe/Paris" eq_refl eq_refl).
Defined.

End FeedMore.

(* ------------------------------------------------------------------ *)
(** ** The terminal dialogue *)

Module ConsoleProps.
Import Py Datetime Pronote Console.
Open Scope string_scope.
Open Scope Z_scope.

(** What [prompt_non_empty] returns is not empty. *)
Lemma prompt_non_empty_not_blank (label : str) (stdin : list str) :
  forall (stdout : list str) (v : str) (rest out : list str),
    prompt_non_empty label stdin stdout = (Some v, (rest, out)) -> v <> EmptyString.
Proof.
  induction stdin as [|line stdin IH]; intros stdout v rest out; cbn [prompt_non_empty].
  - discriminate.
  - destruct (truthy (Some (strip line))) eqn:Hline.
    + intros H. injection H as <- _ _. apply FeedMore.truthy_true_iff. exact Hline.
    + apply IH.
Qed.

(** What [prompt_int] returns is within the bounds. *)
Lemma prompt_int_within (int : str -> option Z) (label : str) (default min_v max_v : Z)
      (stdin : list str) :
  forall (stdout : list str) (x : Z) (rest out : list str),
    prompt_int int label default min_v max_v stdin stdout = (Some x, (rest, out)) ->
    min_v <= x <= max_v.
Proof.
  induction stdin as [|line stdin IH]; intros stdout x rest out; cbn [prompt_int].
  - discriminate.
  - destruct (int (or_else (Some (strip line)) (str_of_int default))) as [y|];
      [|apply IH].
    destruct ((min_v <=? y) && (y <=? max_v)) eqn:Hrange; [|apply IH].
    intros H. injection H as <- _ _.
    apply andb_true_iff in Hrange. destruct Hrange as [Hlo Hhi].
    apply Z.leb_le in Hlo. apply Z.leb_le in Hhi. lia.
Qed.

(** X11 - [prompt_non_empty] returns the first line that is not blank,
    without its surrounding blanks; the lines before it were blank and each
    was answered by one message and a new prompt. *)
Theorem prompt_non_empty_returns_first_text
        (label : str) (stdin stdout : list str) (v : str) (rest out : list str) :
  prompt_non_empty label stdin stdout = (Some v, (rest, out)) ->
  v <> EmptyString
  /\ exists (blanks : list str) (line : str),
      stdin = (blanks ++ line :: rest)%list
      /\ v = strip line
      /\ Forall (fun l => strip l = EmptyString) blanks
      /\ out = (stdout
                ++ List.concat
                     (map (fun _ => [label; ("⛔ Entrée vide, réessaie." ++ newline)%string])
                        blanks)
                ++ [label])%list.
Proof.
  revert stdout v rest out.
  induction stdin as [|line stdin IH]; intros stdout v rest out; cbn [prompt_non_empty].
  - discriminate.
  - destruct (truthy (Some (strip line))) eqn:Hline.
    + intros H. injection H as <- <- <-.
      split; [apply FeedMore.truthy_true_iff; exact Hline|].
      exists [], line. repeat split. constructor.
    + intros H. apply IH in H. destruct H as (Hv & blanks & l & Hin & Hstrip & Hblanks & Hout).
      split; [exact Hv|].
      exists (line :: blanks), l. subst stdin. split; [reflexivity|]. split; [exact Hstrip|].
      split.
      * constructor; [apply FeedProps.truthy_false_iff; exact Hline | exact Hblanks].
      * rewrite Hout. unfold print. cbn [map List.concat].
        rewrite <- !app_assoc. reflexivity.
Qed.

Lemma prompt_non_empty_returns_first_text_witness :
  prompt_non_empty "Identifiant: " ["  "; EmptyString; " lea "; "next"] []
  = (Some "lea", (["next"], ["Identifiant: "; "⛔ Entrée vide, réessaie." ++ newline;
                             "Identifiant: "; "⛔ Entrée vide, réessaie." ++ newline;
                             "Identifiant: "]))
  /\ "lea" <> EmptyString.
Proof.
  assert (Hrun : prompt_non_empty "Identifiant: " ["  "; EmptyString; " lea "; "next"] []
                 = (Some "lea", (["next"],
                      ["Identifiant: "; "⛔ Entrée vide, réessaie." ++ newline;
                       "Identifiant: "; "⛔ Entrée vide, réessaie." ++ newline;
                       "Identifiant: "]))) by reflexivity.
  split; [exact Hrun|].
  apply (prompt_non_empty_returns_first_text _ _ _ _ _ _ Hrun).
Defined.

(** X12 - [prompt_int] returns a value within its bounds: the value [int]
    reads in the first line it does not refuse, a blank line standing for
    the default; every line before was refused, for not being a number or
    for being out of bounds. When it ends at the end of the input instead,
    every line was refused and none is left. *)
Theorem prompt_int_returns_within_bounds
        (int : str -> option Z) (label : str) (default min_v max_v : Z)
        (stdin stdout : list str) :
  (forall (x : Z) (rest out : list str),
      prompt_int int label default min_v max_v stdin stdout = (Some x, (rest, out)) ->
      min_v <= x <= max_v
      /\ exists (refused : list str) (line : str),
          stdin = (refused ++ line :: rest)%list
          /\ int (or_else (Some (strip line)) (str_of_int default)) = Some x
          /\ Forall (fun l => forall y,
                         int (or_else (Some (strip l)) (str_of_int default)) = Some y ->
                         y < min_v \/ max_v < y) refused)
  /\ (forall rest out : list str,
        prompt_int int label default min_v max_v stdin stdout = (None, (rest, out)) ->
        rest = []
        /\ Forall (fun l => forall y,
                       int (or_else (Some (strip l)) (str_of_int default)) = Some y ->
                       y < min_v \/ max_v < y) stdin).
Proof.
  assert (Hrefuse : forall (line : str) (y : Z),
             int (or_else (Some (strip line)) (str_of_int default)) = Some y ->
             (min_v <=? y) && (y <=? max_v) = false ->
             forall y', int (or_else (Some (strip line)) (str_of_int default)) = Some y' ->
                        y' < min_v \/ max_v < y').
  { intros line y Hint Hrange y' Hy'. rewrite Hint in Hy'. injection Hy' as <-.
    apply andb_false_iff in Hrange. destruct Hrange as [Hlo|Hhi].
    - left. apply Z.leb_gt in Hlo. exact Hlo.
    - right. apply Z.leb_gt in Hhi. exact Hhi. }
  split.
  - revert stdout.
    induction stdin as [|line stdin IH]; intros stdout x rest out; cbn [prompt_int].
    + discriminate.
    + destruct (int (or_else (Some (strip line)) (str_of_int default))) as [y|] eqn:Hint.
      * destruct ((min_v <=? y) && (y <=? max_v)) eqn:Hrange.
        -- intros H. injection H as <- <- <-.
           apply andb_true_iff in Hrange. destruct Hrange as [Hlo Hhi].
           apply Z.leb_le in Hlo. apply Z.leb_le in Hhi.
           split; [lia|]. exists [], line. repeat split; [exact Hint | constructor].
        -- intros H. apply IH in H. destruct H as (Hx & refused & l & Hin & Hl & Hrefused).
           split; [exact Hx|]. exists (line :: refused), l. subst stdin.
           split; [reflexivity|]. split; [exact Hl|].
           constructor; [exact (Hrefuse line y Hint Hrange) | exact Hrefused].
      * intros H. apply IH in H. destruct H as (Hx & refused & l & Hin & Hl & Hrefused).
        split; [exact Hx|]. exists (line :: refused), l. subst stdin.
        split; [reflexivity|]. split; [exact Hl|].
        constructor; [|exact Hrefused].
        intros y' Hy'. rewrite Hint in Hy'. discriminate.
  - revert stdout.
    induction stdin as [|line stdin IH]; intros stdout rest out; cbn [prompt_int].
    + intros H. injection H as <- _. split; [reflexivity | constructor].
    + destruct (int (or_else (Some (strip line)) (str_of_int default))) as [y|] eqn:Hint.
      * destruct ((min_v <=? y) && (y <=? max_v)) eqn:Hrange; [discriminate|].
        intros H. apply IH in H. destruct H as [Hrest Hrefused].
        split; [exact Hrest|].
        constructor; [exact (Hrefuse line y Hint Hrange) | exact Hrefused].
      * intros H. apply IH in H. destruct H as [Hrest Hrefused].
        split; [exact Hrest|]. constructor; [|exact Hrefused].
        intros y' Hy'. rewrite Hint in Hy'. discriminate.
Qed.

Lemma prompt_int_returns_within_bounds_witness :
  fst (prompt_int Demo.decimal "TTL" 120 60 900 ["abc"; "59"; " 300 "; "7"] [])
  = Some 300
  /\ 60 <= 300 <= 900.
Proof.
  destruct (prompt_int Demo.decimal "TTL" 120 60 900 ["abc"; "59"; " 300 "; "7"] [])
    as [[x|] [rest out]] eqn:Hrun.
  - destruct (prompt_int_returns_within_bounds Demo.decimal "TTL" 120 60 900
                ["abc"; "59"; " 300 "; "7"] []) as [Haccept _].
    destruct (Haccept x rest out Hrun) as [Hbounds _].
    vm_compute in Hrun. injection Hrun as <- _ _.
    split; [reflexivity | exact Hbounds].
  - vm_compute in Hrun. discriminate Hrun.
Defined.

(** X13 - The configuration is valid. Whenever the dialogue of the start
    comes to its end, whatever [int] reads, the address and the identifier
    are not empty, the zone name is not empty, the default number of weeks is
    between 1 and 26, the TTL between 60 and 900 and the port between 1024
    and 65535; the backend made of it has this TTL and an empty cache, and
    for its zone what [tz.gettz] makes of the zone name, which is no zone at
    all when it knows none of that name. *)
Theorem configure_gives_valid_settings
        (int : str -> option Z) (gettz : str -> option tzref)
        (password : str) (stdin : list str)
        (c : Config) (rest out : list str) :
  configure int password stdin = (Some c, (rest, out)) ->
  PRONOTE_URL c <> EmptyString
  /\ PRONOTE_USERNAME c <> EmptyString
  /\ PRONOTE_PASSWORD c = password
  /\ TIMEZONE c <> EmptyString
  /\ 1 <= DEFAULT_WEEKS_FORWARD c <= 26
  /\ 60 <= CACHE_TTL_SECONDS c <= 900
  /\ 1024 <= PORT c <= 65535
  /\ 60 <= cache_ttl (backend_of gettz c) <= 900
  /\ _cache_range (backend_of gettz c) = (None, None)
  /\ _cache_lessons (backend_of gettz c) = []
  /\ local_tz (backend_of gettz c) = gettz (TIMEZONE c).
Proof.
  unfold configure, next.
  destruct (prompt_non_empty _ stdin _) as [[url|] [in1 out1]] eqn:Hurl; [|discriminate].
  destruct (prompt_non_empty _ in1 _) as [[user|] [in2 out2]] eqn:Huser; [|discriminate].
  destruct (choose_optional _ _ in2 _) as [[ent|] [in3 out3]] eqn:Hent; [|discriminate].
  destruct (choose_optional _ _ in3 _) as [[timezone|] [in4 out4]] eqn:Hzone; [|discriminate].
  destruct (prompt_int int _ 8 1 26 in4 out4) as [[weeks|] [in5 out5]] eqn:Hweeks;
    [|discriminate].
  destruct (prompt_int int _ 120 60 900 in5 out5) as [[ttl|] [in6 out6]] eqn:Httl;
    [|discriminate].
  destruct (prompt_int int _ 8000 1024 65535 in6 out6) as [[port|] [in7 out7]] eqn:Hport;
    [|discriminate].
  intros H. injection H as <- _ _. cbn.
  apply prompt_non_empty_not_blank in Hurl.
  apply prompt_non_empty_not_blank in Huser.
  apply prompt_int_within in Hweeks.
  apply prompt_int_within in Httl.
  apply prompt_int_within in Hport.
  assert (Htz : timezone <> EmptyString).
  { unfold choose_optional in Hzone. destruct in3 as [|line in3']; [discriminate|].
    injection Hzone as <- _ _.
    destruct (String.eqb (strip line) EmptyString) eqn:He; cbn [negb];
      [discriminate | apply String.eqb_neq; exact He]. }
  repeat split; try assumption; lia.
Qed.

Lemma configure_gives_valid_settings_witness :
  exists c : Config,
    fst (configure Demo.decimal "secret" Demo.answers) = Some c
    /\ CACHE_TTL_SECONDS c = 60
    /\ PORT c = 8080
    /\ 1 <= DEFAULT_WEEKS_FORWARD c <= 26
    /\ _cache_range (backend_of Demo.gettz c) = (None, None)
    /\ local_tz (backend_of Demo.gettz c) = Demo.gettz (TIMEZONE c).
Proof.
  destruct (configure Demo.decimal "secret" Demo.answers) as [[c|] [rest out]] eqn:Hrun.
  - destruct (configure_gives_valid_settings Demo.decimal Demo.gettz "secret" Demo.answers
                c rest out Hrun)
      as (_ & _ & _ & _ & Hweeks & _ & _ & _ & Hrange & _ & Hzone).
    exists c. vm_compute in Hrun. injection Hrun as <- _ _.
    split; [reflexivity|]. split; [reflexivity|]. split; [reflexivity|].
    split; [exact Hweeks|]. split; [exact Hrange | exact Hzone].
  - vm_compute in Hrun. discriminate Hrun.
Defined.

End ConsoleProps.

(* ------------------------------------------------------------------ *)
(** ** The request handler *)

Module ServerProps.
Import Py Datetime Pronote Feed Console Server CacheProps.
Open Scope string_scope.
Open Scope Z_scope.

Section Handler.
Context {tzdb : TzDatabase} {machine : Machine}.
Variable int : str -> option Z.
Variable to_ical : Calendar -> result str.
Variable DEFAULT_WEEKS_FORWARD : Z.

(** On the two calendar paths [do_GET] is the second [try]. *)
Lemma do_GET_calendar (p : Pronotepy) (path : str) (qs : list (str * list str))
      (today : date) (now : Z) (w : World) :
  path = "/calendar.ics" \/ path = "/calendar" ->
  do_GET int to_ical DEFAULT_WEEKS_FORWARD p path qs today now w
  = calendar_answer to_ical p now (today - 7)
      (today + 7 * weeks_of int DEFAULT_WEEKS_FORWARD qs) w.
Proof.
  intros [-> | ->]; reflexivity.
Qed.

(** The second [try] leaves the world as [get_lessons] left it. *)
Lemma calendar_answer_world (p : Pronotepy) (now : Z) (sd ed : date) (w : World) :
  snd (calendar_answer to_ical p now sd ed w) = snd (get_lessons p now sd ed w).
Proof.
  unfold calendar_answer.
  destruct (get_lessons p now sd ed w) as [[e|lessons] w']; [reflexivity|].
  destruct (lessons_to_ics (self w') lessons) as [e|cal]; [reflexivity|].
  destruct (to_ical cal); reflexivity.
Qed.

(** When [get_lessons] returns, the cache holds what it returned. *)
Lemma returned_lessons_are_cached (p : Pronotepy) (now : Z) (sd ed : date) (w : World)
      (lessons : list Lesson) :
  fst (get_lessons p now sd ed w) = inr lessons ->
  _cache_lessons (self (snd (get_lessons p now sd ed w))) = lessons
  /\ _cache_range (self (snd (get_lessons p now sd ed w))) = (Some sd, Some ed).
Proof.
  destruct (CacheMore.get_lessons_cases p now sd ed w)
    as [(Hrange & _ & Hcall)|[(_ & fetched & _ & Hcall)|(_ & e & _ & Hcall)]];
    rewrite Hcall; cbn [fst snd]; intros H; [| |discriminate H].
  - injection H as <-. split; [reflexivity | exact Hrange].
  - injection H as <-. split; reflexivity.
Qed.

(** X14 - The number of weeks is clamped. With a default between 1 and
    26, the number of weeks of a request is between 1 and 26: it is the
    number [int] reads in the first value of the parameter when that is
    between 1 and 26, and the default when the number is out of these bounds,
    when [int] refuses the value, and when the parameter has no value. *)
Theorem weeks_are_clamped (qs : list (str * list str)) :
  1 <= DEFAULT_WEEKS_FORWARD <= 26 ->
  1 <= weeks_of int DEFAULT_WEEKS_FORWARD qs <= 26
  /\ (forall (first : str) (others : list str) (v : Z),
        dict_get qs "weeks" = Some (first :: others) ->
        int first = Some v ->
        (1 <= v <= 26 -> weeks_of int DEFAULT_WEEKS_FORWARD qs = v)
        /\ (v < 1 \/ 26 < v -> weeks_of int DEFAULT_WEEKS_FORWARD qs = DEFAULT_WEEKS_FORWARD))
  /\ (forall (first : str) (others : list str),
        dict_get qs "weeks" = Some (first :: others) ->
        int first = None ->
        weeks_of int DEFAULT_WEEKS_FORWARD qs = DEFAULT_WEEKS_FORWARD)
  /\ (dict_get qs "weeks" = Some [] ->
      weeks_of int DEFAULT_WEEKS_FORWARD qs = DEFAULT_WEEKS_FORWARD)
  /\ (dict_get qs "weeks" = None ->
      int (str_of_int DEFAULT_WEEKS_FORWARD) = Some DEFAULT_WEEKS_FORWARD ->
      weeks_of int DEFAULT_WEEKS_FORWARD qs = DEFAULT_WEEKS_FORWARD).
Proof.
  intros Hdefault.
  assert (Hclamp : forall v : Z,
             1 <= (if (v <? 1) || (26 <? v) then DEFAULT_WEEKS_FORWARD else v) <= 26).
  { intros v. destruct (v <? 1) eqn:Hlo; cbn [orb]; [exact Hdefault|].
    destruct (26 <? v) eqn:Hhi; [exact Hdefault|].
    apply Z.ltb_ge in Hlo. apply Z.ltb_ge in Hhi. lia. }
  split; [|split; [|split; [|split]]].
  - unfold weeks_of.
    destruct (dict_get qs "weeks") as [[|first others]|]; [exact Hdefault| |].
    + destruct (int first) as [v|]; [apply Hclamp | exact Hdefault].
    + destruct (int (str_of_int DEFAULT_WEEKS_FORWARD)) as [v|];
        [apply Hclamp | exact Hdefault].
  - intros first others v Hqs Hint. unfold weeks_of. rewrite Hqs, Hint. split.
    + intros Hv.
      replace (v <? 1) with false by (symmetry; apply Z.ltb_ge; lia).
      replace (26 <? v) with false by (symmetry; apply Z.ltb_ge; lia).
      reflexivity.
    + intros [Hlo|Hhi].
      * replace (v <? 1) with true by (symmetry; apply Z.ltb_lt; lia). reflexivity.
      * replace (26 <? v) with true by (symmetry; apply Z.ltb_lt; lia).
        rewrite orb_true_r. reflexivity.
  - intros first others Hqs Hint. unfold weeks_of. rewrite Hqs, Hint. reflexivity.
  - intros Hqs. unfold weeks_of. rewrite Hqs. reflexivity.
  - intros Hqs Hint. unfold weeks_of. rewrite Hqs, Hint.
    replace (DEFAULT_WEEKS_FORWARD <? 1) with false by (symmetry; apply Z.ltb_ge; lia).
    replace (26 <? DEFAULT_WEEKS_FORWARD) with false by (symmetry; apply Z.ltb_ge; lia).
    reflexivity.
Qed.

(** X15 - Requests that are not for the calendar. A request for [/health]
    is answered 200 with the twelve bytes of the JSON text, and a request for
    any path other than [/health], [/calendar.ics] and [/calendar] is
    answered 400; neither reaches the backend or the service. *)
Theorem other_paths_leave_the_backend_alone
        (p : Pronotepy) (path : str) (qs : list (str * list str))
        (today : date) (now : Z) (w : World) :
  path <> "/calendar.ics" ->
  path <> "/calendar" ->
  let r := fst (do_GET int to_ical DEFAULT_WEEKS_FORWARD p path qs today now w) in
  snd (do_GET int to_ical DEFAULT_WEEKS_FORWARD p path qs today now w) = w
  /\ (path = "/health" ->
      status r = 200 /\ body r = "{" ++ quote ++ "ok" ++ quote ++ ": true}"
      /\ header "Content-Length" (headers r) = Some "12")
  /\ (path <> "/health" ->
      status r = 400 /\ body r = "Utilise /calendar.ics (option: ?weeks=8)").
Proof.
  intros Hics Hcal. unfold do_GET.
  destruct (String.eqb path "/health") eqn:Hhealth.
  - cbn. split; [reflexivity|]. split; [intros _; repeat split|].
    intros Hne. apply String.eqb_eq in Hhealth. contradiction.
  - apply String.eqb_neq in Hics. apply String.eqb_neq in Hcal.
    rewrite Hics, Hcal. cbn. split; [reflexivity|]. split.
    + intros Heq. apply String.eqb_neq in Hhealth. contradiction.
    + intros _. split; reflexivity.
Qed.

(** X16 - Every answer announces its length. Whatever the request and the
    state, the answer has one of the statuses 200, 400 and 500, a content
    type, and a [Content-Length] header that is the decimal text of the
    number of bytes of its body. *)
Theorem answers_announce_their_length
        (p : Pronotepy) (path : str) (qs : list (str * list str))
        (today : date) (now : Z) (w : World) :
  let r := fst (do_GET int to_ical DEFAULT_WEEKS_FORWARD p path qs today now w) in
  header "Content-Length" (headers r) = Some (str_of_int (len (body r)))
  /\ (exists content_type : str, header "Content-Type" (headers r) = Some content_type)
  /\ (status r = 200 \/ status r = 400 \/ status r = 500).
Proof.
  unfold do_GET.
  destruct (String.eqb path "/health").
  - cbn. split; [reflexivity|]. split; [eexists; reflexivity | auto].
  - destruct (negb _).
    + cbn. split; [reflexivity|]. split; [eexists; reflexivity | auto].
    + cbv zeta. unfold calendar_answer.
      destruct (get_lessons _ _ _ _ w) as [[e|lessons] w'];
        [|destruct (lessons_to_ics (self w') lessons) as [e|cal];
          [|destruct (to_ical cal) as [e|ics_bytes]]];
        cbn; (split; [reflexivity|]); (split; [eexists; reflexivity | auto]).
Qed.

(** X17 - The window asked for. With a default between 1 and 26, a
    request makes at most one upstream call, and the window of that call
    starts seven days before today and ends between one and twenty-six weeks
    after today. *)
Theorem window_of_a_request
        (p : Pronotepy) (path : str) (qs : list (str * list str))
        (today : date) (now : Z) (w : World) :
  1 <= DEFAULT_WEEKS_FORWARD <= 26 ->
  let w' := snd (do_GET int to_ical DEFAULT_WEEKS_FORWARD p path qs today now w) in
  upstream_calls w' = upstream_calls w
  \/ exists end_date : date,
      upstream_calls w' = (upstream_calls w ++ [(today - 7, end_date)])%list
      /\ end_date = today + 7 * weeks_of int DEFAULT_WEEKS_FORWARD qs
      /\ today + 7 <= end_date <= today + 182.
Proof.
  intros Hdefault.
  assert (Hweeks : 1 <= weeks_of int DEFAULT_WEEKS_FORWARD qs <= 26).
  { unfold weeks_of.
    assert (Hclamp : forall v : Z,
               1 <= (if (v <? 1) || (26 <? v) then DEFAULT_WEEKS_FORWARD else v) <= 26).
    { intros v. destruct (v <? 1) eqn:Hlo; cbn [orb]; [exact Hdefault|].
      destruct (26 <? v) eqn:Hhi; [exact Hdefault|].
      apply Z.ltb_ge in Hlo. apply Z.ltb_ge in Hhi. lia. }
    destruct (dict_get qs "weeks") as [[|first others]|]; [exact Hdefault| |].
    - destruct (int first) as [v|]; [apply Hclamp | exact Hdefault].
    - destruct (int (str_of_int DEFAULT_WEEKS_FORWARD)) as [v|];
        [apply Hclamp | exact Hdefault]. }
  unfold do_GET.
  destruct (String.eqb path "/health"); [left; reflexivity|].
  destruct (negb _); [left; reflexivity|].
  cbv zeta. rewrite calendar_answer_world.
  destruct (CacheMore.get_lessons_cases p now (today - 7)
              (today + 7 * weeks_of int DEFAULT_WEEKS_FORWARD qs) w)
    as [(_ & _ & Hcall)|[(_ & lessons & _ & Hcall)|(_ & e & _ & Hcall)]];
    rewrite Hcall; cbn [snd upstream_calls].
  - left. reflexivity.
  - right. eexists. split; [reflexivity|]. split; [reflexivity | lia].
  - right. eexists. split; [reflexivity|]. split; [reflexivity | lia].
Qed.

(** X18 - What a calendar request answers. On the two calendar paths the
    world after the request is the world after [get_lessons]. The answer is
    200 exactly when [get_lessons] returns lessons, the calendar of them is
    built and its serialisation returns, and then its body is the serialised
    calendar. If one of the three raises, the answer is 500 with the text of
    that exception after a fixed prefix: when it is [get_lessons] the backend
    is as it was before the request, and when it is the build or the
    serialisation the cache has been filled with the lessons all the same. *)
Theorem calendar_request_outcomes
        (p : Pronotepy) (path : str) (qs : list (str * list str))
        (today : date) (now : Z) (w : World) :
  path = "/calendar.ics" \/ path = "/calendar" ->
  let r := fst (do_GET int to_ical DEFAULT_WEEKS_FORWARD p path qs today now w) in
  let w' := snd (do_GET int to_ical DEFAULT_WEEKS_FORWARD p path qs today now w) in
  let end_date := today + 7 * weeks_of int DEFAULT_WEEKS_FORWARD qs in
  let called := get_lessons p now (today - 7) end_date w in
  w' = snd called
  /\ (forall e : Exception,
        fst called = inl e ->
        status r = 500
        /\ body r = "Erreur génération ICS: " ++ str_of_exception e
        /\ self w' = self w)
  /\ (forall lessons : list Lesson,
        fst called = inr lessons ->
        _cache_lessons (self w') = lessons
        /\ _cache_range (self w') = (Some (today - 7), Some end_date)
        /\ (forall e : Exception,
              lessons_to_ics (self w') lessons = inl e ->
              status r = 500
              /\ body r = "Erreur génération ICS: " ++ str_of_exception e)
        /\ (forall cal : Calendar,
              lessons_to_ics (self w') lessons = inr cal ->
              (forall e : Exception,
                  to_ical cal = inl e ->
                  status r = 500
                  /\ body r = "Erreur génération ICS: " ++ str_of_exception e)
              /\ (forall ics_bytes : str,
                    to_ical cal = inr ics_bytes ->
                    status r = 200
                    /\ body r = ics_bytes
                    /\ header "Content-Type" (headers r)
                       = Some "text/calendar; charset=utf-8")))
  /\ (status r = 200
      <-> exists (lessons : list Lesson) (cal : Calendar) (ics_bytes : str),
          fst called = inr lessons
          /\ lessons_to_ics (self w') lessons = inr cal
          /\ to_ical cal = inr ics_bytes).
Proof.
  intros Hpath r w' end_date called. unfold r, w'.
  rewrite (do_GET_calendar p path qs today now w Hpath). fold end_date.
  pose proof (calendar_answer_world p now (today - 7) end_date w) as Hworld.
  pose proof (raise_leaves_backend p now (today - 7) end_date w) as Hraise.
  pose proof (returned_lessons_are_cached p now (today - 7) end_date w) as Hcached.
  unfold calendar_answer in *. fold called in Hworld, Hraise, Hcached |- *.
  destruct called as [[e|lessons] w1]; cbn [fst snd] in *.
  - split; [reflexivity|]. split; [|split].
    + intros e' He'. injection He' as <-.
      split; [reflexivity|]. split; [reflexivity|]. apply (Hraise e eq_refl).
    + intros lessons Hl. discriminate Hl.
    + split; [discriminate|]. intros (lessons & _ & _ & Hl & _). discriminate Hl.
  - destruct (Hcached lessons eq_refl) as [Hlessons Hrange].
    destruct (lessons_to_ics (self w1) lessons) as [e|cal] eqn:Hbuild;
      [|destruct (to_ical cal) as [e|ics_bytes] eqn:Hbytes]; cbn [fst snd] in *.
    + split; [reflexivity|]. split; [intros e' He'; discriminate He'|]. split.
      * intros lessons' Hl. injection Hl as <-.
        split; [exact Hlessons|]. split; [exact Hrange|]. split.
        -- intros e' He'. rewrite Hbuild in He'. injection He' as <-.
           split; reflexivity.
        -- intros cal Hcal. rewrite Hbuild in Hcal. discriminate Hcal.
      * split; [discriminate|].
        intros (lessons' & cal & _ & Hl & Hcal & _).
        injection Hl as <-. rewrite Hbuild in Hcal. discriminate Hcal.
    + split; [reflexivity|]. split; [intros e' He'; discriminate He'|]. split.
      * intros lessons' Hl. injection Hl as <-.
        split; [exact Hlessons|]. split; [exact Hrange|]. split.
        -- intros e' He'. rewrite Hbuild in He'. discriminate He'.
        -- intros cal' Hcal. rewrite Hbuild in Hcal. injection Hcal as <-. split.
           ++ intros e' He'. rewrite Hbytes in He'. injection He' as <-.
              split; reflexivity.
           ++ intros b Hb. rewrite Hbytes in Hb. discriminate Hb.
      * split; [discriminate|].
        intros (lessons' & cal' & b & Hl & Hcal & Hb).
        injection Hl as <-. rewrite Hbuild in Hcal. injection Hcal as <-.
        rewrite Hbytes in Hb. discriminate Hb.
    + split; [reflexivity|]. split; [intros e' He'; discriminate He'|]. split.
      * intros lessons' Hl. injection Hl as <-.
        split; [exact Hlessons|]. split; [exact Hrange|]. split.
        -- intros e' He'. rewrite Hbuild in He'. discriminate He'.
        -- intros cal' Hcal. rewrite Hbuild in Hcal. injection Hcal as <-. split.
           ++ intros e' He'. rewrite Hbytes in He'. discriminate He'.
           ++ intros b Hb. rewrite Hbytes in Hb. injection Hb as <-.
              split; [reflexivity|]. split; reflexivity.
      * split; [intros _ | reflexivity].
        exists lessons, cal, ics_bytes.
        split; [reflexivity|]. split; [exact Hbuild | exact Hbytes].
Qed.

(** X19 - A repeated request is served from the cache. After a calendar
    request that went to the service and was answered 200, a calendar request
    made the same day, for a number of weeks that resolves to the same value,
    less than one TTL later by the clock, gets the very same answer without
    any upstream call, whatever the service would say by then. *)
Theorem repeated_request_is_served_from_cache
        (p1 p2 : Pronotepy) (path1 path2 : str) (qs1 qs2 : list (str * list str))
        (today : date) (t1 t2 : Z) (w : World) :
  path1 = "/calendar.ics" \/ path1 = "/calendar" ->
  path2 = "/calendar.ics" \/ path2 = "/calendar" ->
  weeks_of int DEFAULT_WEEKS_FORWARD qs1 = weeks_of int DEFAULT_WEEKS_FORWARD qs2 ->
  t1 < t2 < t1 + cache_ttl (self w) ->
  let first := do_GET int to_ical DEFAULT_WEEKS_FORWARD p1 path1 qs1 today t1 w in
  upstream_calls (snd first) <> upstream_calls w ->
  status (fst first) = 200 ->
  do_GET int to_ical DEFAULT_WEEKS_FORWARD p2 path2 qs2 today t2 (snd first) = first.
Proof.
  intros Hpath1 Hpath2 Hweeks Ht first Hfetched Hok. unfold first in *.
  rewrite (do_GET_calendar p2 path2 qs2 today t2 _ Hpath2).
  rewrite (do_GET_calendar p1 path1 qs1 today t1 w Hpath1) in *.
  rewrite <- Hweeks. unfold calendar_answer in *.
  destruct (CacheMore.get_lessons_cases p1 t1 (today - 7)
              (today + 7 * weeks_of int DEFAULT_WEEKS_FORWARD qs1) w)
    as [(_ & _ & Hcall)|[(_ & lessons & _ & Hcall)|(_ & e & _ & Hcall)]];
    rewrite Hcall in *; cbn [fst snd] in *.
  - destruct (lessons_to_ics _ _) as [e|cal]; [|destruct (to_ical cal)];
      cbn [snd] in Hfetched; contradiction.
  - match goal with |- context [lessons_to_ics (self ?w0) lessons] => set (w1 := w0) in * end.
    destruct (lessons_to_ics (self w1) lessons) as [e|cal] eqn:Hbuild;
      [cbn in Hok; discriminate Hok|].
    destruct (to_ical cal) as [e|ics_bytes] eqn:Hbytes; [cbn in Hok; discriminate Hok|].
    cbn [snd].
    rewrite (get_lessons_on_hit p2 t2 (today - 7)
               (today + 7 * weeks_of int DEFAULT_WEEKS_FORWARD qs1) w1);
      [|reflexivity | cbn; lia].
    replace (_cache_lessons (self w1)) with lessons by reflexivity.
    rewrite Hbuild, Hbytes. reflexivity.
  - cbn in Hok. discriminate Hok.
Qed.

(** X20 - The cache does not outlive the day. When the cache holds the
    window of a request made on some day, a calendar request made on another
    day goes to the service, however little time has passed by the clock. *)
Theorem another_day_is_another_window
        (p : Pronotepy) (path : str) (qs : list (str * list str))
        (today tomorrow : date) (stored_end : date) (now : Z) (w : World) :
  path = "/calendar.ics" \/ path = "/calendar" ->
  _cache_range (self w) = (Some (today - 7), Some stored_end) ->
  tomorrow <> today ->
  upstream_calls (snd (do_GET int to_ical DEFAULT_WEEKS_FORWARD p path qs tomorrow now w))
  = (upstream_calls w
     ++ [(tomorrow - 7, tomorrow + 7 * weeks_of int DEFAULT_WEEKS_FORWARD qs)])%list.
Proof.
  intros Hpath Hrange Hday.
  rewrite (do_GET_calendar p path qs tomorrow now w Hpath), calendar_answer_world.
  rewrite get_lessons_on_miss.
  - destruct (fst (_fetch_lessons _ _ _ w)); reflexivity.
  - left. rewrite Hrange. intros Heq. injection Heq as Hs _. lia.
Qed.

End Handler.

Lemma weeks_are_clamped_witness :
  weeks_of Demo.decimal 8 [("weeks", ["12"])] = 12
  /\ weeks_of Demo.decimal 8 [("weeks", ["27"])] = 8
  /\ weeks_of Demo.decimal 8 [("weeks", ["abc"; "3"])] = 8
  /\ 1 <= weeks_of Demo.decimal 8 [("days", ["3"])] <= 26.
Proof.
  assert (Hdefault : 1 <= 8 <= 26) by lia.
  destruct (weeks_are_clamped Demo.decimal 8 [("weeks", ["12"])] Hdefault)
    as (_ & Hread & _).
  destruct (weeks_are_clamped Demo.decimal 8 [("weeks", ["27"])] Hdefault)
    as (_ & Hout & _).
  destruct (weeks_are_clamped Demo.decimal 8 [("weeks", ["abc"; "3"])] Hdefault)
    as (_ & _ & Hrefused & _).
  destruct (weeks_are_clamped Demo.decimal 8 [("days", ["3"])] Hdefault)
    as (Hbounds & _).
  split; [|split; [|split]].
  - apply (Hread "12" [] 12 eq_refl eq_refl). lia.
  - apply (Hout "27" [] 27 eq_refl eq_refl). right. lia.
  - apply (Hrefused "abc" ["3"] eq_refl eq_refl).
  - exact Hbounds.
Defined.

Lemma other_paths_leave_the_backend_alone_witness :
  let answer := do_GET (tzdb := Sample.zones) (machine := Sample.utc_machine)
                  Demo.decimal Demo.render 8 Sample.failing
                  "/favicon.ico" [] 738949 1709539200 (fresh Sample.backend) in
  snd answer = fresh Sample.backend /\ status (fst answer) = 400.
Proof.
  intros answer.
  destruct (other_paths_leave_the_backend_alone
              (tzdb := Sample.zones) (machine := Sample.utc_machine)
              Demo.decimal Demo.render 8 Sample.failing "/favicon.ico" []
              738949 1709539200 (fresh Sample.backend))
    as (Hworld & _ & Hbad); try discriminate.
  split; [exact Hworld|]. apply Hbad. discriminate.
Defined.

Lemma window_of_a_request_witness :
  let w' := snd (do_GET (tzdb := Sample.zones) (machine := Sample.utc_machine)
                   Demo.decimal Demo.render 8
                   (Sample.serving []) "/calendar" [("weeks", ["26"])]
                   738949 1709539200 (fresh Sample.backend)) in
  upstream_calls w' = [(738942, 739131)]
  /\ 738949 + 7 <= 739131 <= 738949 + 182.
Proof.
  intros w'.
  destruct (window_of_a_request (tzdb := Sample.zones) (machine := Sample.utc_machine)
              Demo.decimal Demo.render 8
              (Sample.serving []) "/calendar" [("weeks", ["26"])]
              738949 1709539200 (fresh Sample.backend))
    as [Hnone|(end_date & Hcalls & Hend & Hbounds)]; [lia | |].
  - discriminate Hnone.
  - fold w' in Hcalls. vm_compute in Hend. subst end_date.
    split; [exact Hcalls | exact Hbounds].
Defined.

(** A lesson whose end cannot be brought to the local zone: the request is
    answered 500 and the lessons are in the cache. *)
Lemma calendar_request_outcomes_witness :
  let answer := do_GET (tzdb := Sample.zones) (machine := Sample.utc_machine)
                  Demo.decimal Demo.render 8
                  (Sample.serving [Sample.math; Sample.endless]) "/calendar.ics" []
                  738949 1709539200 (fresh Sample.backend) in
  status (fst answer) = 500
  /\ body (fst answer) = "Erreur génération ICS: date value out of range"
  /\ _cache_lessons (self (snd answer)) = [Sample.math; Sample.endless].
Proof.
  intros answer.
  destruct (calendar_request_outcomes (tzdb := Sample.zones) (machine := Sample.utc_machine)
              Demo.decimal Demo.render 8
              (Sample.serving [Sample.math; Sample.endless]) "/calendar.ics" []
              738949 1709539200 (fresh Sample.backend) (or_introl eq_refl))
    as (_ & _ & Hreturned & _).
  destruct (Hreturned [Sample.math; Sample.endless] eq_refl)
    as (Hcached & _ & Hbuild & _).
  destruct (Hbuild (OverflowError "date value out of range") eq_refl)
    as (Hstatus & Hbody).
  split; [exact Hstatus|]. split; [exact Hbody | exact Hcached].
Defined.

Lemma repeated_request_is_served_from_cache_witness :
  let first := do_GET (tzdb := Sample.zones) (machine := Sample.utc_machine)
                 Demo.decimal Demo.render 8
                 (Sample.serving [Sample.math]) "/calendar.ics" [] 738949 1709539200
                 (fresh Sample.backend) in
  do_GET (tzdb := Sample.zones) (machine := Sample.utc_machine)
    Demo.decimal Demo.render 8 Sample.failing
    "/calendar" [("weeks", ["8"])] 738949 1709539260 (snd first)
  = first.
Proof.
  apply (repeated_request_is_served_from_cache
           (tzdb := Sample.zones) (machine := Sample.utc_machine)
           Demo.decimal Demo.render 8 (Sample.serving [Sample.math]) Sample.failing
           "/calendar.ics" "/calendar" [] [("weeks", ["8"])] 738949
           1709539200 1709539260 (fresh Sample.backend)).
  - left. reflexivity.
  - right. reflexivity.
  - reflexivity.
  - cbn. lia.
  - discriminate.
  - reflexivity.
Defined.

Lemma another_day_is_another_window_witness :
  let first := do_GET (tzdb := Sample.zones) (machine := Sample.utc_machine)
                 Demo.decimal Demo.render 8
                 (Sample.serving [Sample.math]) "/calendar.ics" [] 738949 1709593199
                 (fresh Sample.backend) in
  upstream_calls
    (snd (do_GET (tzdb := Sample.zones) (machine := Sample.utc_machine)
            Demo.decimal Demo.render 8
            (Sample.serving [Sample.math]) "/calendar.ics" [] 738950 1709593201
            (snd first)))
  = [(738942, 739005); (738943, 739006)].
Proof.
  intros first.
  apply (another_day_is_another_window (tzdb := Sample.zones) (machine := Sample.utc_machine)
           Demo.decimal Demo.render 8
           (Sample.serving [Sample.math]) "/calendar.ics" [] 738949 738950 739005
           1709593201 (snd first)).
  - left. reflexivity.
  - reflexivity.
  - discriminate.
Defined.

End ServerProps.

